(** * vscode-journal: the Journal pipelines and the template configuration

    A shallow embedding of [src/client/src/journal.ts] (class [Journal]) and
    of the [Configuration] class that follows it in the same file.

    The code is written in continuation style over Q promises.  A promise
    is embedded by the state it finally reaches ([Outcome]); a chain of
    [.then] / [.catch] handlers is a computation over the record [St],
    which carries the [Q.defer()] cell of the enclosing function, the
    closure variables the handlers assign, and the trace of every call
    made to a collaborator.  Handlers run to completion in program order:
    the embedding fixes one schedule and does not model interleavings.
    Calls of [console.log] are left out.

    The classes [Util], [Parser], [Writer], [Reader], [VSCode] and [Input]
    are used by [journal.ts] but are not part of the sources; their
    methods are fields of the record [Env].  Each answer may depend on the
    whole trace so far, so a collaborator may be stateful.

    [Configuration] is part of the sources, and [Journal] calls two
    methods on it that the class does not have, [getPageTemplate] and
    [getNotesPagesTemplate]: such a call throws a TypeError.  The
    functions that make these calls are written once with the outcome of
    the call as an argument ([getPageForDayWith], [createNoteWith]); the
    functions of the sources are their instances at the exception. *)

From Stdlib Require Import String Ascii List ZArith Bool DecimalString.
Import ListNotations.
Open Scope string_scope.
Open Scope list_scope.

(** ** JavaScript values *)

(** A [number] used as a day offset: an integer, an infinity or [NaN].
    The date parser yields whole days; an offset with a fraction, which
    [setDate] would truncate, is left out. *)
Inductive JsNumber : Type :=
| JNaN
| JInt (z : Z)
| JInfinity (negative : bool).

Definition isNaN (n : JsNumber) : bool :=
  match n with JNaN => true | _ => false end.

(** A [Date], by its local calendar day (days since the epoch); the time of
    day plays no part in the code below.  [InvalidDate] is the date whose
    time value is [NaN]. *)
Inductive JsDate : Type :=
| InvalidDate
| LocalDay (d : Z).

(** A [Date] holds the instants up to 100,000,000 days either side of
    the epoch.  The embedding keeps the local day only, so the test is on
    the day: at the two ends, where the time of day and the time zone
    decide between the last day inside and the first outside, it takes
    the days 100,000,000 and -100,000,000 for the last ones inside. *)
Definition inDateRange (d : Z) : bool :=
  ((-100000000 <=? d) && (d <=? 100000000))%Z.

(** [date.setDate(date.getDate() + offset)]: a day that leaves the range
    of [Date], like an offset that is no finite number, gives the invalid
    date. *)
Definition setDate_getDate_plus (date : JsDate) (offset : JsNumber) : JsDate :=
  match date, offset with
  | LocalDay d, JInt k => if inDateRange (d + k) then LocalDay (d + k) else InvalidDate
  | _, _ => InvalidDate
  end.

(** The result of synchronous code: a value, or a thrown exception given
    by its string conversion (which is what ['...' + err] and
    [err != 'cancel'] observe). *)
Inductive Completion (A : Type) : Type :=
| Normal (a : A)
| Throw (e : string).
Arguments Normal {A} a.
Arguments Throw {A} e.

(** The final state of a promise. *)
Inductive Outcome (A : Type) : Type :=
| Resolved (a : A)
| Rejected (r : string)
| Pending.
Arguments Resolved {A} a.
Arguments Rejected {A} r.
Arguments Pending {A}.

(** The TypeError of reading a property of [undefined]; the wording of the
    message is the engine's and plays no part below. *)
Definition TypeError_undefined (prop : string) : string :=
  ("TypeError: Cannot read property '" ++ prop ++ "' of undefined")%string.

(** The TypeError of calling a method that the object does not have. *)
Definition TypeError_not_a_function (callee : string) : string :=
  ("TypeError: " ++ callee ++ " is not a function")%string.

(** *** [String.prototype.replace] with a string pattern *)

Fixpoint dropChars (n : nat) (s : string) : string :=
  match n, s with
  | O, _ => s
  | S n', String _ r => dropChars n' r
  | S _, EmptyString => EmptyString
  end.

(** The text before and after the first occurrence of [pat] in [s]. *)
Fixpoint splitAtFirst (pat s : string) : option (string * string) :=
  if prefix pat s then Some (EmptyString, dropChars (String.length pat) s)
  else match s with
       | EmptyString => None
       | String c r =>
           match splitAtFirst pat r with
           | Some (before, after) => Some (String c before, after)
           | None => None
           end
       end.

(** GetSubstitution of ECMA-262 for a pattern without capture groups:
    [$$], [$&], [$`] and [$'] are expanded; every other [$] is literal,
    [$1] to [$99] included, since there is no group to refer to. *)
Fixpoint getSubstitution (matched before after repl : string) : string :=
  match repl with
  | EmptyString => EmptyString
  | String c rest =>
      if Ascii.eqb c "$" then
        match rest with
        | String d rest' =>
            if Ascii.eqb d "$" then String "$" (getSubstitution matched before after rest')
            else if Ascii.eqb d "&" then
              (matched ++ getSubstitution matched before after rest')%string
            else if Ascii.eqb d "`" then
              (before ++ getSubstitution matched before after rest')%string
            else if Ascii.eqb d "'" then
              (after ++ getSubstitution matched before after rest')%string
            else String c (getSubstitution matched before after rest)
        | EmptyString => String c EmptyString
        end
      else String c (getSubstitution matched before after rest)
  end.

(** [s.replace(pat, repl)]: only the first occurrence is replaced. *)
Definition jsReplace (s pat repl : string) : string :=
  match splitAtFirst pat s with
  | Some (before, after) =>
      (before ++ getSubstitution pat before after repl ++ after)%string
  | None => s
  end.

(** Plain replacement of the first occurrence, without [$] patterns. *)
Definition replaceFirst (s pat repl : string) : string :=
  match splitAtFirst pat s with
  | Some (before, after) => (before ++ repl ++ after)%string
  | None => s
  end.

Fixpoint noDollar (s : string) : bool :=
  match s with
  | EmptyString => true
  | String c r => negb (Ascii.eqb c "$") && noDollar r
  end.

(** ** Data of the extension *)

Record TextDocument : Type := mkDoc { uri_path : string; text : string }.
Record TextEditor : Type := mkEditor { document : TextDocument }.
Record Position : Type := mkPosition { line : nat; character : nat }.
Record PickDayItem : Type := mkPickDayItem { label : string; description : string }.

(** Modelled from the spec: the class [Input] of the parser module, which
    is missing from the sources.  The spec's data model gives it the raw
    text, an offset, a memo that may be absent and a collection of flags;
    [hasMemo] and [hasFlags] say whether the memo text, respectively any
    flag, is present.  The offset is the [number] that [journal.ts] hands
    to [getPageForDay]. *)
Record Input : Type := mkInput {
  rawText : string;
  offset : JsNumber;
  memo : option string;
  flags : list string
}.

Definition hasMemo (i : Input) : bool :=
  match memo i with
  | Some m => negb (m =? EmptyString)
  | None => false
  end.

Definition hasFlags (i : Input) : bool :=
  match flags i with
  | [] => false
  | _ :: _ => true
  end.

(** [config.ts]: the inline templates and the scope tree. *)
Record InlineTemplate : Type := mkInlineTemplate {
  scope : string;
  id : string;
  template : string;
  after : string
}.

Record Page : Type := mkPage {
  templates : list InlineTemplate;
  path : string;
  file : string
}.

Record Scope : Type := mkScope {
  name : string;
  note : Page;
  entry : Page
}.

Record Root : Type := mkRoot { scopes : list Scope }.

Definition SCOPE_DEFAULT : string := "default".

(** ** Calls to collaborators *)

Inductive Event : Type :=
| EvGetUserInput (prompt : string)
| EvGetUserInputComboSync (prompt : string) (items : list PickDayItem)
| EvTokenize (value : string)
| EvGetPreviousJournalFiles
| EvGetFileForDate (date : JsDate)
| EvLoadTextDocument (p : string)
| EvGetPageTemplate
| EvGetNotesPagesTemplate
| EvCreateSaveLoadTextDocument (p : string) (content : option string)
| EvShowDocument (doc : TextDocument)
| EvShowErrorMessage (msg : string)
| EvWriteInputToFile (doc : TextDocument) (pos : Position) (input : Input)
| EvInsertContent (doc : TextDocument) (tpl : option InlineTemplate)
                  (labelArg linkArg : string * string)
| EvGetReferencedFiles (doc : TextDocument)
| EvGetFilesInNotesFolder (doc : TextDocument)
| EvNormalizeFilename (input : string)
| EvGetFilePathInDateFolder (date : JsDate) (filename : string).

Definition Trace : Type := list Event.

(** The calls that change a file or a document. *)
Definition isMutation (e : Event) : bool :=
  match e with
  | EvCreateSaveLoadTextDocument _ _ => true
  | EvWriteInputToFile _ _ _ => true
  | EvInsertContent _ _ _ _ => true
  | _ => false
  end.

Definition isErrorMessage (e : Event) : bool :=
  match e with
  | EvShowErrorMessage _ => true
  | _ => false
  end.

(** Why opening a document failed.  The promise only carries the rejection
    value; the cause stays with the host. *)
Inductive IOCause : Type :=
| FileNotFound
| PermissionDenied
| OtherIOFailure.

Inductive LoadResult : Type :=
| Loaded (doc : TextDocument)
| LoadFailed (cause : IOCause) (value : string)
| LoadPending.

Definition loadPromise (r : LoadResult) : Outcome TextDocument :=
  match r with
  | Loaded doc => Resolved doc
  | LoadFailed _ value => Rejected value
  | LoadPending => Pending
  end.

(** The collaborators of [Journal].  The methods [getPageTemplate] and
    [getNotesPagesTemplate], which [Journal] calls on its configuration,
    are not among them: [Configuration] has neither (see
    [getPageTemplateCall] and [getNotesPagesTemplateCall] below). *)
Record Env : Type := mkEnv {
  (* the process clock: the local day of [new Date()] *)
  clock : Trace -> Z;
  (* journal.VSCode *)
  getUserInput : Trace -> string -> Outcome string;
  getUserInputComboSync : Trace -> string -> list PickDayItem -> Outcome string;
  loadTextDocument : Trace -> string -> LoadResult;
  createSaveLoadTextDocument : Trace -> string -> option string -> Outcome TextDocument;
  showDocument : Trace -> TextDocument -> Outcome TextEditor;
  (* journal.Parser *)
  tokenize : Trace -> string -> Outcome Input;
  (* journal.Util *)
  getFileForDate : Trace -> JsDate -> Outcome string;
  getFilePathInDateFolder : Trace -> JsDate -> string -> Outcome string;
  normalizeFilename : Trace -> string -> Outcome string;
  formatDate : JsDate -> string;
  denormalizeFilename : string -> string;
  getFileInURI : string -> string;
  (* journal.Writer *)
  writeInputToFile : Trace -> TextDocument -> Position -> Input -> Outcome TextDocument;
  (* journal.Reader *)
  getReferencedFiles : Trace -> TextDocument -> Outcome (list string);
  getFilesInNotesFolder : Trace -> TextDocument -> Outcome (list string);
  getPreviousJournalFiles : Trace -> Outcome (list string);
  (* configuration *)
  inlineTemplates : option (list InlineTemplate)
}.

(** ** Promise chains *)

Record St (L T : Type) : Type := mkSt {
  deferred : Outcome T;
  locals : L;
  trace : Trace
}.
Arguments mkSt {L T} deferred locals trace.
Arguments deferred {L T} s.
Arguments locals {L T} s.
Arguments trace {L T} s.

Definition Chain (L T A : Type) : Type := St L T -> Outcome A * St L T.

(** A promise-returning function: from the trace at the call to the final
    state of the returned promise and the trace at the end. *)
Definition Promise (T : Type) : Type := Trace -> Outcome T * Trace.

Section Chains.
Context {L T : Type}.

Definition ret {A} (a : A) : Chain L T A := fun s => (Resolved a, s).

Definition throw {A} (e : string) : Chain L T A := fun s => (Rejected e, s).

Definition then_ {A B} (p : Chain L T A) (f : A -> Chain L T B) : Chain L T B :=
  fun s =>
    match p s with
    | (Resolved a, s') => f a s'
    | (Rejected r, s') => (Rejected r, s')
    | (Pending, s') => (Pending, s')
    end.

Definition catch_ {A} (p : Chain L T A) (h : string -> Chain L T A) : Chain L T A :=
  fun s =>
    match p s with
    | (Resolved a, s') => (Resolved a, s')
    | (Rejected r, s') => h r s'
    | (Pending, s') => (Pending, s')
    end.

(** A statement whose promise is dropped: it runs, and whatever becomes
    of it, the caller goes on. *)
Definition detach {A} (p : Chain L T A) : Chain L T unit :=
  fun s => (Resolved tt, snd (p s)).

(** [deferred.resolve(v)] and [deferred.reject(r)]: the first one wins. *)
Definition settle (o : Outcome T) : Chain L T unit :=
  fun s =>
    match deferred s with
    | Pending => (Resolved tt, mkSt o (locals s) (trace s))
    | _ => (Resolved tt, s)
    end.

Definition resolve_ (v : T) : Chain L T unit := settle (Resolved v).
Definition reject_ (r : string) : Chain L T unit := settle (Rejected r).

Definition getLocal : Chain L T L := fun s => (Resolved (locals s), s).

Definition setLocal (l : L) : Chain L T unit :=
  fun s => (Resolved tt, mkSt (deferred s) l (trace s)).

(** A call to a collaborator: its answer is read off the trace so far,
    and the call is recorded. *)
Definition call {A} (e : Event) (answer : Trace -> Outcome A) : Chain L T A :=
  fun s => (answer (trace s), mkSt (deferred s) (locals s) (trace s ++ [e])).

Definition emit (e : Event) : Chain L T unit :=
  fun s => (Resolved tt, mkSt (deferred s) (locals s) (trace s ++ [e])).

(** A call to a promise-returning function of the extension itself.  The
    callee is run to its end before the caller goes on: what the callee
    still does in the background after it has settled its promise comes
    first in the trace, whereas in a run of the code it may come later.
    Statements that span a caller and its callee are therefore made on
    what is called, not on the order across the two. *)
Definition await {A} (f : Promise A) : Chain L T A :=
  fun s => let (o, t) := f (trace s) in (o, mkSt (deferred s) (locals s) t).

(** Synchronous code inside a handler: an exception rejects the promise
    of the handler. *)
Definition complete {A} (c : Completion A) : Chain L T A :=
  match c with
  | Normal a => ret a
  | Throw e => throw e
  end.

(** [Q.all([p1, p2])]: both calls are made when the array is built.  When
    both reject, the first in the array is taken. *)
Definition all2 {A} (p1 p2 : Chain L T A) : Chain L T (A * A) :=
  fun s =>
    let (o1, s1) := p1 s in
    let (o2, s2) := p2 s1 in
    (match o1, o2 with
     | Resolved a, Resolved b => Resolved (a, b)
     | Rejected r, _ => Rejected r
     | _, Rejected r => Rejected r
     | _, _ => Pending
     end, s2).

(** [xs.forEach(f)]: an exception thrown by [f] ends the loop. *)
Fixpoint forEach {A} (xs : list A) (f : A -> Chain L T unit) : Chain L T unit :=
  match xs with
  | [] => ret tt
  | x :: rest => then_ (f x) (fun _ => forEach rest f)
  end.
End Chains.

(** [let deferred = Q.defer(); ...; return deferred.promise] *)
Definition promise {L T A : Type} (l0 : L) (body : Chain L T A) : Promise T :=
  fun t =>
    let s := snd (body (mkSt Pending l0 t)) in
    (deferred s, trace s).

(** [p.then(f)] and [p.catch(h)], chained left to right as in the source. *)
Notation "p '>>then' f" := (then_ p f) (at level 50, left associativity).
Notation "p '>>catch' h" := (catch_ p h) (at level 50, left associativity).
(** Two statements of one handler body. *)
Notation "p ;;; k" := (then_ p (fun _ => k))
  (at level 61, right associativity).

(** A [void] function of the extension: only its calls are observed. *)
Definition runVoid {A : Type} (body : Chain unit unit A) : Trace -> Trace :=
  fun t => trace (snd (body (mkSt Pending tt t))).

Definition exec {L T : Type} (f : Trace -> Trace) : Chain L T unit :=
  fun s => (Resolved tt, mkSt (deferred s) (locals s) (f (trace s))).

Definition dquote : string := String (ascii_of_nat 34) EmptyString.

(** ** [Configuration] *)

(** [_scopeId ? _scopeId : SCOPE_DEFAULT]: an absent or empty id is falsy. *)
Definition scopeOrDefault (_scopeId : option string) : string :=
  match _scopeId with
  | Some s => if s =? EmptyString then SCOPE_DEFAULT else s
  | None => SCOPE_DEFAULT
  end.

Definition findScope (scopes : list Scope) (scopeId : option string) : option Scope :=
  find (fun val => prefix (scopeOrDefault scopeId) (name val)) scopes.

Definition findTemplate (templates : list InlineTemplate) (templateId : string)
  : option InlineTemplate :=
  find (fun val => prefix templateId (id val)) templates.

(** [this.config.get("inline-templates")] followed by [.find(...)]. *)
Definition inlineTemplatesArray (cfg : option (list InlineTemplate))
  : Completion (list InlineTemplate) :=
  match cfg with
  | Some templates => Normal templates
  | None => Throw (TypeError_undefined "find")
  end.

Definition getHeaderTemplate (cfg : option (list InlineTemplate)) (_scopeId : option string)
  : Completion string :=
  let scopeId := scopeOrDefault _scopeId in
  match inlineTemplatesArray cfg with
  | Throw e => Throw e
  | Normal templates =>
      match find (fun entry => scope entry =? (scopeId ++ ".entry.header")%string) templates with
      | Some entry => Normal (template entry)
      | None => Throw (TypeError_undefined "template")
      end
  end.

Definition getJournalConfig : Completion (Promise Root) :=
  Throw "Not yet implemented".

Definition getMemoTemplate (cfg : option (list InlineTemplate)) (_scopeId : option string)
  : Promise (option InlineTemplate) :=
  promise tt
    (let scopeId := scopeOrDefault _scopeId in
     complete (inlineTemplatesArray cfg) >>then (fun templatesArray =>
     resolve_ (find (fun tpl => id tpl =? (scopeId ++ ".entry.memo")%string) templatesArray))).

(** [scope.entry.templates], where [scope] is what [findScope] returned. *)
Definition entryTemplates (s : option Scope) : Completion (list InlineTemplate) :=
  match s with
  | Some sc => Normal (templates (entry sc))
  | None => Throw (TypeError_undefined "entry")
  end.

(** The handler that [getFileLinkTemplate] and [getTaskTemplate] attach to
    the journal configuration, up to [deferred.resolve(tpl)]. *)
Definition scopedTemplate (templateId : string) (val : Root) (_scopeId : option string)
  : Completion (option InlineTemplate) :=
  match entryTemplates (findScope (scopes val) _scopeId) with
  | Throw e => Throw e
  | Normal ts =>
      match findTemplate ts templateId with
      | Some tpl => Normal (Some tpl)
      | None =>
          (* template not found? fall back to default *)
          match entryTemplates (findScope (scopes val) (Some SCOPE_DEFAULT)) with
          | Throw e => Throw e
          | Normal ds => Normal (findTemplate ds templateId)
          end
      end
  end.

(** The body shared by the two lookups, for a given way to get the
    journal configuration. *)
Definition scopedLookup (journalConfig : Completion (Promise Root))
    (templateId : string) (_scopeId : option string)
  : Completion (Promise (option InlineTemplate)) :=
  match journalConfig with
  | Throw e => Throw e
  | Normal cfg =>
      Normal (promise tt
        (await cfg
           >>then (fun val =>
              complete (scopedTemplate templateId val _scopeId) >>then (fun tpl =>
              resolve_ tpl))
           >>catch (fun err => reject_ err)))
  end.

Definition getFileLinkTemplate (_scopeId : option string)
  : Completion (Promise (option InlineTemplate)) :=
  scopedLookup getJournalConfig "file" _scopeId.

Definition getTaskTemplate (_scopeId : option string)
  : Completion (Promise (option InlineTemplate)) :=
  scopedLookup getJournalConfig "task" _scopeId.

(** ** [Journal] *)

Section Journal.
Variable env : Env.

(** [new Date()] *)
Definition newDate {L T : Type} : Chain L T JsDate :=
  fun s => (Resolved (LocalDay (clock env (trace s))), s).

(** The body of [synchronizeReferencedFiles], for a given way to obtain
    the file-link template.  The handler attached to the template promise
    is run where it is attached. *)
Definition synchronizeWith
    (linkTemplate : Completion (Promise (option InlineTemplate)))
    (doc : TextDocument) : Trace -> Trace :=
  runVoid
    (all2 (call (EvGetReferencedFiles doc) (fun t => getReferencedFiles env t doc))
          (call (EvGetFilesInNotesFolder doc) (fun t => getFilesInNotesFolder env t doc))
       >>then (fun results =>
          let referencedFiles := fst results in
          let foundFiles := snd results in
          forEach foundFiles (fun file =>
            match find (fun m => m =? file) referencedFiles with
            | None =>
                match linkTemplate with
                | Throw e => throw e
                | Normal tplPromise =>
                    detach
                      (await tplPromise >>then (fun tplInfo =>
                         emit (EvInsertContent doc tplInfo
                                 ("{label}", denormalizeFilename env file)
                                 ("{link}",
                                  ("./" ++ getFileInURI env (uri_path doc)
                                        ++ "/" ++ file)%string))))
                end
            | Some _ => ret tt
            end))
       >>catch (fun err =>
          emit (EvShowErrorMessage
                  ("Failed to synchronize page with notes folder. Reason: " ++ err)%string))).

Definition synchronizeReferencedFiles (doc : TextDocument) : Trace -> Trace :=
  synchronizeWith (getFileLinkTemplate None) doc.

(** A call of a template method of the configuration object: it throws,
    or it returns a promise whose fate is read off the trace. *)
Definition TemplateCall : Type := Completion (Trace -> Outcome string).

(** [this.config.getPageTemplate()]: the class [Configuration] has no
    method of that name (its page template is [getJournalEntryTemplate]),
    so the call is a TypeError. *)
Definition getPageTemplateCall : TemplateCall :=
  Throw (TypeError_not_a_function "this.config.getPageTemplate").

(** [this.config.getNotesPagesTemplate()]: no such method either (the
    note template is [getNotesTemplate]). *)
Definition getNotesPagesTemplateCall : TemplateCall :=
  Throw (TypeError_not_a_function "this.config.getNotesPagesTemplate").

(** The promise in the promise of the first [.catch] of [getPageForDay],
    for a template promise with the answers [answer]. *)
Definition createPageFrom (answer : Trace -> Outcome string)
    (offset : JsNumber) (path : string) : Promise TextDocument :=
  promise tt
    (newDate >>then (fun today =>
     let date := setDate_getDate_plus today offset in
     call EvGetPageTemplate answer
       >>then (fun tpl => ret (jsReplace tpl "{header}" (formatDate env date)))
       >>then (fun content =>
          call (EvCreateSaveLoadTextDocument path (Some content))
               (fun t => createSaveLoadTextDocument env t path (Some content)))
       >>then (fun doc => resolve_ doc))).

(** The handler of the first [.catch] of [getPageForDay], for a given
    outcome of the call [this.config.getPageTemplate()].  Its argument is
    whatever the chain before it was rejected with.  When the call throws,
    the handler throws: nothing is attached and nothing returned. *)
Definition createPageWith {L T : Type} (pageTemplate : TemplateCall)
    (offset : JsNumber) (path : string) : Chain L T TextDocument :=
  match pageTemplate with
  | Throw e => throw e
  | Normal answer => await (createPageFrom answer offset path)
  end.

(** The chain of [getPageForDay] up to and including the first [.catch]. *)
Definition loadOrCreateWith {L T : Type} (pageTemplate : TemplateCall)
    (offset : JsNumber) (date : JsDate) : Chain L T TextDocument :=
  call (EvGetFileForDate date) (fun t => getFileForDate env t date)
    >>then (fun path =>
       call (EvLoadTextDocument path) (fun t => loadPromise (loadTextDocument env t path)))
    >>catch (fun path => createPageWith pageTemplate offset path).

Definition getPageForDayWith (pageTemplate : TemplateCall) (offset : JsNumber)
  : Promise TextDocument :=
  promise tt
    ((if isNaN offset then reject_ "Journal: Not a valid value for offset" else ret tt) ;;;
     newDate >>then (fun today =>
     let date := setDate_getDate_plus today offset in
     loadOrCreateWith pageTemplate offset date
       >>then (fun doc =>
          exec (synchronizeReferencedFiles doc) ;;;
          resolve_ doc)
       >>catch (fun reason => reject_ "Failed to open file"))).

(** The functions of the sources: the configuration object is a
    [Configuration]. *)
Definition loadOrCreate {L T : Type} (offset : JsNumber) (date : JsDate)
  : Chain L T TextDocument :=
  loadOrCreateWith getPageTemplateCall offset date.

Definition getPageForDay (offset : JsNumber) : Promise TextDocument :=
  getPageForDayWith getPageTemplateCall offset.

Definition addMemo (input : Input) (doc : TextDocument) : Promise TextDocument :=
  promise tt
    (if negb (hasMemo input) || negb (hasFlags input) then resolve_ doc
     else
       call (EvWriteInputToFile doc (mkPosition 2 0) input)
            (fun t => writeInputToFile env t doc (mkPosition 2 0) input)
         >>then (fun doc' => resolve_ doc')
         >>catch (fun _ => reject_ "Failed to add memo")).

Definition gatherSelection : Promise (list PickDayItem) :=
  promise tt
    (detach
       (call EvGetPreviousJournalFiles (getPreviousJournalFiles env)
          >>then (fun files =>
             resolve_ (map (fun file => mkPickDayItem file "This is a generic desc") files))) ;;;
     detach (call EvGetPreviousJournalFiles (getPreviousJournalFiles env))).

Definition openDayByInputOrSelection : Promise TextDocument :=
  promise tt
    (await gatherSelection
       >>then (fun items =>
          call (EvGetUserInputComboSync "Enter day or memo (with flags)" items)
               (fun t => getUserInputComboSync env t "Enter day or memo (with flags)" items))
       >>then (fun value => call (EvTokenize value) (fun t => tokenize env t value))
       >>then (fun input => await (getPageForDay (offset input)))
       >>then (fun doc => resolve_ doc)
       >>catch (fun err =>
          if negb (err =? "cancel") then
            let msg := "Failed to translate input into action" in
            emit (EvShowErrorMessage msg) ;;;
            reject_ msg
          else ret tt)).

(** [inputVar] is the closure variable the handlers share. *)
Definition openDayByInput : Promise TextEditor :=
  promise (None : option Input)
    (call (EvGetUserInput "Enter day or memo (with flags) ")
          (fun t => getUserInput env t "Enter day or memo (with flags) ")
       >>then (fun value => call (EvTokenize value) (fun t => tokenize env t value))
       >>then (fun input =>
          setLocal (Some input) ;;;
          await (getPageForDay (offset input)))
       >>then (fun doc =>
          getLocal >>then (fun inputVar =>
          match inputVar with
          | Some input => await (addMemo input doc)
          | None => throw (TypeError_undefined "hasMemo")
          end))
       >>then (fun doc => call (EvShowDocument doc) (fun t => showDocument env t doc))
       >>then (fun editor => resolve_ editor)
       >>catch (fun err =>
          if negb (err =? "cancel") then
            let msg := ("Failed to open page. Reason: " ++ dquote ++ err ++ dquote)%string in
            emit (EvShowErrorMessage msg) ;;;
            reject_ msg
          else ret tt)).

(** The chain of [createNote], for a note template promise with the
    answers [answer]; [label] and [content] are the closure variables. *)
Definition createNoteFrom (pageTemplate : TemplateCall) (answer : Trace -> Outcome string)
  : Promise TextEditor :=
  promise ((None, None) : option string * option string)
    (call EvGetNotesPagesTemplate answer
       >>then (fun tplInfo =>
          getLocal >>then (fun l =>
          setLocal (fst l, Some tplInfo) ;;;
          call (EvGetUserInput "Enter name for your notes")
               (fun t => getUserInput env t "Enter name for your notes")))
       >>then (fun input =>
          getLocal >>then (fun l =>
          match snd l with
          | Some content =>
              setLocal (Some input, Some (jsReplace content "{content}" input)) ;;;
              call (EvNormalizeFilename input) (fun t => normalizeFilename env t input)
          | None => throw (TypeError_undefined "replace")
          end))
       >>then (fun filename =>
          newDate >>then (fun today =>
          call (EvGetFilePathInDateFolder today filename)
               (fun t => getFilePathInDateFolder env t today filename)))
       >>then (fun path =>
          call (EvLoadTextDocument path) (fun t => loadPromise (loadTextDocument env t path)))
       >>catch (fun filename =>
          if negb (filename =? "cancel") then
            getLocal >>then (fun l =>
            call (EvCreateSaveLoadTextDocument filename (snd l))
                 (fun t => createSaveLoadTextDocument env t filename (snd l)))
          else throw "cancel")
       >>then (fun doc => call (EvShowDocument doc) (fun t => showDocument env t doc))
       >>then (fun editor =>
          detach (await (getPageForDayWith pageTemplate (JInt 0))) ;;;
          resolve_ editor)
       >>catch (fun err =>
          if negb (err =? "cancel") then
            reject_ ("Failed to create a new note. Reason is [" ++ err ++ "]")%string
          else ret tt)).

(** [createNote], for given outcomes of the two template calls: the call
    [this.config.getNotesPagesTemplate()] heads the chain and is made in
    the body of [createNote] itself, not in a handler, so an exception of
    that call is an exception of [createNote]: no chain is built and no
    promise returned. *)
Definition createNoteWith (pageTemplate notesTemplate : TemplateCall)
  : Completion (Promise TextEditor) :=
  match notesTemplate with
  | Throw e => Throw e
  | Normal answer => Normal (createNoteFrom pageTemplate answer)
  end.

Definition createNote : Completion (Promise TextEditor) :=
  createNoteWith getPageTemplateCall getNotesPagesTemplateCall.

End Journal.

(** ** The tokenizer and the date parser *)

Module Parser.

Record CalendarDate : Type := mkCalendarDate { year : Z; month : Z; day : Z }.

Inductive ParseError : Type :=
| UnrecognizedToken (offending : string).

(** Days since 1970-01-01 of a civil date; a month or day out of range
    rolls over into the following months. *)
Definition daysFromCivil (c : CalendarDate) : Z :=
  let y := (if month c <=? 2 then year c - 1 else year c)%Z in
  let era := (y / 400)%Z in
  let yoe := (y - era * 400)%Z in
  let mp := ((month c + 9) mod 12)%Z in
  let doy := ((153 * mp + 2) / 5 + day c - 1)%Z in
  let doe := (yoe * 365 + yoe / 4 - yoe / 100 + doy)%Z in
  (era * 146097 + doe - 719468)%Z.

(** 0 is Sunday. *)
Definition weekdayOf (c : CalendarDate) : Z := ((daysFromCivil c + 4) mod 7)%Z.

Definition isDigit (c : ascii) : bool :=
  let n := nat_of_ascii c in (48 <=? n)%nat && (n <=? 57)%nat.

Definition isWhitespace (c : ascii) : bool :=
  let n := nat_of_ascii c in (n =? 32)%nat || (n =? 9)%nat || (n =? 10)%nat || (n =? 13)%nat.

Fixpoint digitsValue (acc : Z) (s : string) : option Z :=
  match s with
  | EmptyString => Some acc
  | String c r =>
      if isDigit c
      then digitsValue (10 * acc + Z.of_nat (nat_of_ascii c - 48))%Z r
      else None
  end.

Definition natural (s : string) : option Z :=
  match s with
  | EmptyString => None
  | _ => digitsValue 0 s
  end.

Fixpoint trimLeft (s : string) : string :=
  match s with
  | String c r => if isWhitespace c then trimLeft r else s
  | EmptyString => EmptyString
  end.

Fixpoint trimRight (s : string) : string :=
  match s with
  | EmptyString => EmptyString
  | String c r =>
      let r' := trimRight r in
      if isWhitespace c && (r' =? EmptyString) then EmptyString else String c r'
  end.

Definition trim (s : string) : string := trimRight (trimLeft s).

(** The leading run without whitespace, and what follows it. *)
Fixpoint word (s : string) : string * string :=
  match s with
  | EmptyString => (EmptyString, EmptyString)
  | String c r =>
      if isWhitespace c then (EmptyString, s)
      else let (w, rest) := word r in (String c w, rest)
  end.

Fixpoint splitOn (sep : ascii) (s : string) : list string :=
  match s with
  | EmptyString => [EmptyString]
  | String c r =>
      if Ascii.eqb c sep then EmptyString :: splitOn sep r
      else match splitOn sep r with
           | h :: t => String c h :: t
           | [] => [String c EmptyString]
           end
  end.

Definition weekdayNames : list (string * Z) :=
  [ ("sunday", 0); ("sun", 0); ("monday", 1); ("mon", 1); ("tuesday", 2); ("tue", 2);
    ("wednesday", 3); ("wed", 3); ("thursday", 4); ("thu", 4); ("friday", 5); ("fri", 5);
    ("saturday", 6); ("sat", 6) ]%Z.

Definition weekdayIndex (s : string) : option Z :=
  option_map snd (find (fun e => fst e =? s) weekdayNames).

(** Days to the nearest occurrence of a weekday strictly ahead. *)
Definition daysAhead (from to : Z) : Z :=
  let k := ((to - from) mod 7)%Z in if (k =? 0)%Z then 7%Z else k.

Definition signedInteger (token : string) : option Z :=
  match token with
  | String "+" r => natural r
  | String "-" r => option_map Z.opp (natural r)
  | String "0" EmptyString => Some 0%Z
  | _ => None
  end.

Definition relativeKeyword (token : string) : option Z :=
  if token =? "today" then Some 0%Z
  else if token =? "tomorrow" then Some 1%Z
  else if token =? "yesterday" then Some (-1)%Z
  else None.

Definition weekdayOffset (token : string) (today : CalendarDate) : option Z :=
  let (first, rest) := word token in
  let second := trim rest in
  if first =? "next" then
    option_map (fun w => daysAhead (weekdayOf today) w) (weekdayIndex second)
  else if first =? "last" then
    option_map (fun w => (- daysAhead w (weekdayOf today))%Z) (weekdayIndex second)
  else if second =? EmptyString then
    option_map (fun w => daysAhead (weekdayOf today) w) (weekdayIndex first)
  else None.

Definition isoDate (token : string) : option CalendarDate :=
  match splitOn "-" token with
  | [y; m; d] =>
      if (String.length y =? 4)%nat && (String.length m =? 2)%nat && (String.length d =? 2)%nat
      then match natural y, natural m, natural d with
           | Some yy, Some mm, Some dd => Some (mkCalendarDate yy mm dd)
           | _, _, _ => None
           end
      else None
  | _ => None
  end.

(** Modelled from the spec: the date parser (section 4.1), which is
    missing from the sources.  The four grammars are tried in the order
    of the spec: signed integer, relative keyword, weekday name with an
    optional "next" or "last", ISO date; the result is the day offset
    from [today], and any other token fails with a parse error carrying
    it. *)
Definition parse (token : string) (today : CalendarDate) : ParseError + Z :=
  match signedInteger token with
  | Some n => inr n
  | None =>
      match relativeKeyword token with
      | Some n => inr n
      | None =>
          match weekdayOffset token today with
          | Some n => inr n
          | None =>
              match isoDate token with
              | Some d => inr (daysFromCivil d - daysFromCivil today)%Z
              | None => inl (UnrecognizedToken token)
              end
          end
      end
  end.

(** The date token of a non-empty text and the remainder: the token is
    the first word, with the weekday that follows it when that word is
    "next" or "last". *)
Definition splitDateToken (raw : string) : string * string :=
  let (first, rest) := word (trimLeft raw) in
  if (first =? "next") || (first =? "last") then
    let (second, rest') := word (trimLeft rest) in
    ((first ++ " " ++ second)%string, rest')
  else (first, rest).

Definition nonEmpty (s : string) : option string :=
  if s =? EmptyString then None else Some s.

Definition memoOf (remainder : string) : option string :=
  match splitOn "#" remainder with
  | m :: _ => nonEmpty (trim m)
  | [] => None
  end.

Definition flagsOf (remainder : string) : list string :=
  match splitOn "#" remainder with
  | _ :: fs => nodup string_dec (filter (fun f => negb (f =? EmptyString)) (map trim fs))
  | [] => []
  end.

(** Modelled from the spec: [Parser.tokenize] (section 4.2), which is
    missing from the sources.  The empty text is today without memo and
    without flags; otherwise the date token is split off at the
    whitespace that ends it and handed to the date parser, and the
    remainder is split at the flag sigil [#] into the memo and the
    flags.  The only failure is the one of the date parser. *)
Definition tokenize (today : CalendarDate) (raw : string) : ParseError + Input :=
  if raw =? EmptyString then inr (mkInput raw (JInt 0) None [])
  else
    let (token, remainder) := splitDateToken raw in
    match parse token today with
    | inl e => inl e
    | inr n => inr (mkInput raw (JInt n) (memoOf remainder) (flagsOf remainder))
    end.

End Parser.

(** ** A concrete host

    A small environment to run the pipelines on: the clock stands at
    2023-01-10 (day 19367), pages live under [/journal], the user's answer
    to every prompt, the fate of every load and the two listings of the
    reader are given. *)

Definition demoToday : Parser.CalendarDate := Parser.mkCalendarDate 2023 1 10.

Definition demoPagePath (date : JsDate) : string :=
  match date with
  | LocalDay d => ("/journal/day" ++ NilZero.string_of_int (Z.to_int d) ++ ".md")%string
  | InvalidDate => "/journal/NaN/NaN/NaN.md"
  end.

Definition demoEnv (answer : Outcome string) (load : string -> LoadResult)
    (referenced found : Outcome (list string)) : Env :=
  {| clock := fun _ => 19367%Z;
     getUserInput := fun _ _ => answer;
     getUserInputComboSync := fun _ _ _ => answer;
     loadTextDocument := fun _ p => load p;
     createSaveLoadTextDocument := fun _ p content =>
       Resolved (mkDoc p (match content with Some c => c | None => "null" end));
     showDocument := fun _ doc => Resolved (mkEditor doc);
     tokenize := fun _ value =>
       match Parser.tokenize demoToday value with
       | inr input => Resolved input
       | inl (Parser.UnrecognizedToken token) => Rejected token
       end;
     getFileForDate := fun _ date => Resolved (demoPagePath date);
     getFilePathInDateFolder := fun _ date filename =>
       Resolved ("/journal/notes/" ++ filename)%string;
     normalizeFilename := fun _ input => Resolved input;
     formatDate := fun date =>
       match date with
       | LocalDay d => ("day " ++ NilZero.string_of_int (Z.to_int d))%string
       | InvalidDate => "Invalid Date"
       end;
     denormalizeFilename := fun f => f;
     getFileInURI := fun _ => "day19367";
     writeInputToFile := fun _ doc _ input =>
       Resolved (mkDoc (uri_path doc)
                   (text doc ++ match memo input with Some m => m | None => EmptyString end)%string);
     getReferencedFiles := fun _ _ => referenced;
     getFilesInNotesFolder := fun _ _ => found;
     getPreviousJournalFiles := fun _ => Resolved [];
     inlineTemplates :=
       Some [mkInlineTemplate "default.entry.header" "default.entry.header" "# {header}" EmptyString;
             mkInlineTemplate "default.entry.memo" "default.entry.memo" "- {content}" EmptyString]
  |}.

Definition demoDoc : TextDocument := mkDoc "/journal/day19367.md" "# day 19367".

(** Template promises, for the statements on the handlers as they are
    written. *)
Definition demoPageTemplate : Trace -> Outcome string := fun _ => Resolved "# {header}".
Definition demoNotesPagesTemplate : Trace -> Outcome string :=
  fun _ => Resolved "# {content}".

Definition everyPageLoads (p : string) : LoadResult := Loaded (mkDoc p "# loaded").
Definition noPageFound (p : string) : LoadResult := LoadFailed FileNotFound p.

Definition memoOnly : Input := mkInput "buy milk" (JInt 0) (Some "buy milk") [].
Definition memoAndTask : Input := mkInput "buy milk #task" (JInt 0) (Some "buy milk") ["task"].

(** ** Auxiliary definitions for the statements *)

(** [referencedFiles.find(match => match == file)] found nothing. *)
Definition unreferenced (referencedFiles : list string) (file : string) : bool :=
  match find (fun m => m =? file) referencedFiles with
  | None => true
  | Some _ => false
  end.

Definition syncFailureMessage (reason : string) : Event :=
  EvShowErrorMessage ("Failed to synchronize page with notes folder. Reason: " ++ reason)%string.

(** The load-or-create chain as a function of the trace alone. *)
Definition loadOrCreateFromWith (env : Env) (pageTemplate : TemplateCall)
    (offset : JsNumber) (date : JsDate) : Promise TextDocument :=
  fun t =>
    let r := loadOrCreateWith (L := unit) (T := unit) env pageTemplate offset date
               (mkSt Pending tt t) in
    (fst r, trace (snd r)).

Definition loadOrCreateFrom (env : Env) (offset : JsNumber) (date : JsDate)
  : Promise TextDocument :=
  loadOrCreateFromWith env getPageTemplateCall offset date.

(** The handler of the first [.catch] as a function of the trace alone. *)
Definition createPageOutcome (env : Env) (pageTemplate : TemplateCall)
    (offset : JsNumber) (path : string) : Promise TextDocument :=
  fun t =>
    match pageTemplate with
    | Normal answer => createPageFrom env answer offset path t
    | Throw e => (Rejected e, t)
    end.

(** No call of the list changes a file or shows an error message. *)
Definition quiet (evs : list Event) : bool :=
  forallb (fun e => negb (isMutation e) && negb (isErrorMessage e)) evs.

Definition isInsertContent (e : Event) : bool :=
  match e with
  | EvInsertContent _ _ _ _ => true
  | _ => false
  end.

(** The day [getPageForDay] asks the path resolver for. *)
Definition requestedDate (env : Env) (offset : JsNumber) (t : Trace) : JsDate :=
  setDate_getDate_plus (LocalDay (clock env t)) offset.

(** What a run of [synchronizeReferencedFiles] adds to the trace [t]. *)
Definition syncEvents (env : Env) (doc : TextDocument) (t : Trace) : list Event :=
  let t1 := t ++ [EvGetReferencedFiles doc] in
  [EvGetReferencedFiles doc; EvGetFilesInNotesFolder doc] ++
  match getReferencedFiles env t doc, getFilesInNotesFolder env t1 doc with
  | Resolved referencedFiles, Resolved foundFiles =>
      if existsb (unreferenced referencedFiles) foundFiles
      then [syncFailureMessage "Not yet implemented"]
      else []
  | Rejected r, _ => [syncFailureMessage r]
  | _, Rejected r => [syncFailureMessage r]
  | _, _ => []
  end.

(** The call that links [file] from the page [doc]. *)
Definition linkEvent (env : Env) (doc : TextDocument) (tpl : option InlineTemplate)
    (file : string) : Event :=
  EvInsertContent doc tpl
    ("{label}", denormalizeFilename env file)
    ("{link}", ("./" ++ getFileInURI env (uri_path doc) ++ "/" ++ file)%string).

(** A journal configuration that is there: what [getJournalConfig] is
    meant to return once it is implemented. *)
Definition loadedConfig (val : Root) : Completion (Promise Root) :=
  Normal (fun t => (Resolved val, t)).

Definition fileTemplate : InlineTemplate :=
  mkInlineTemplate "default" "file" "- [{label}]({link})" EmptyString.
Definition taskTemplate : InlineTemplate :=
  mkInlineTemplate "default" "task" "- [ ] {content}" EmptyString.
Definition workTaskTemplate : InlineTemplate :=
  mkInlineTemplate "work" "task" "- [ ] (work) {content}" EmptyString.

Definition demoRoot : Root :=
  mkRoot
    [ mkScope "work" (mkPage [] "notes" "note") (mkPage [workTaskTemplate] "entries" "entry");
      mkScope "default" (mkPage [] "notes" "note")
        (mkPage [fileTemplate; taskTemplate] "entries" "entry") ].

Definition demoTemplates : list InlineTemplate :=
  [ mkInlineTemplate "default.entry.header" "default.entry.header" "# {header}" EmptyString;
    mkInlineTemplate "default.entry.memo" "default.entry.memo" "- {content}" EmptyString ].

(** ** The remaining entry points of [Journal] *)

Section JournalEntryPoints.
Variable env : Env.

(** [openDay]: the handlers are passed as bare method references. *)
Definition openDay (offset : JsNumber) : Promise TextEditor :=
  promise tt
    (await (getPageForDay env offset)
       >>then (fun doc => call (EvShowDocument doc) (fun t => showDocument env t doc))
       >>then (fun editor => resolve_ editor)
       >>catch (fun err =>
          let msg := ("Failed to open today's page. Reason: " ++ err)%string in
          emit (EvShowErrorMessage msg) ;;;
          reject_ msg)).

End JournalEntryPoints.

(** The last handler of [openDayByInput], for the reason [r] and the trace
    [t] it is reached with. *)
Definition openPageFailure (r : string) (t : Trace) : Outcome TextEditor * Trace :=
  if r =? "cancel" then (Pending, t)
  else
    let msg := ("Failed to open page. Reason: " ++ dquote ++ r ++ dquote)%string in
    (Rejected msg, t ++ [EvShowErrorMessage msg]).

(** The last handler of [openDayByInputOrSelection]. *)
Definition selectionFailure (r : string) (t : Trace) : Outcome TextDocument * Trace :=
  if r =? "cancel" then (Pending, t)
  else (Rejected "Failed to translate input into action",
        t ++ [EvShowErrorMessage "Failed to translate input into action"]).

(** The last handler of [createNote]. *)
Definition noteFailure (r : string) (t : Trace) : Outcome TextEditor * Trace :=
  if r =? "cancel" then (Pending, t)
  else (Rejected ("Failed to create a new note. Reason is [" ++ r ++ "]")%string, t).

(** The calls [getPageForDay] can make. *)
Definition isPageCall (e : Event) : bool :=
  match e with
  | EvGetFileForDate _ | EvLoadTextDocument _ | EvGetPageTemplate
  | EvCreateSaveLoadTextDocument _ _ | EvGetReferencedFiles _
  | EvGetFilesInNotesFolder _ | EvShowErrorMessage _ => true
  | _ => false
  end.

Definition isMemoWrite (e : Event) : bool :=
  match e with
  | EvWriteInputToFile _ _ _ => true
  | _ => false
  end.

Definition isShowDocument (e : Event) : bool :=
  match e with
  | EvShowDocument _ => true
  | _ => false
  end.

Definition isCreate (e : Event) : bool :=
  match e with
  | EvCreateSaveLoadTextDocument _ _ => true
  | _ => false
  end.

(** ** Variations of the concrete host *)

(** The host [env] with a given answer of the listing of previous journal files. *)
Definition withPreviousJournalFiles (env : Env) (answer : Outcome (list string)) : Env :=
  mkEnv (clock env) (getUserInput env) (getUserInputComboSync env) (loadTextDocument env)
    (createSaveLoadTextDocument env) (showDocument env) (tokenize env) (getFileForDate env)
    (getFilePathInDateFolder env) (normalizeFilename env) (formatDate env)
    (denormalizeFilename env) (getFileInURI env) (writeInputToFile env)
    (getReferencedFiles env) (getFilesInNotesFolder env) (fun _ => answer)
    (inlineTemplates env).

(** The host [env] where every creation of a document ends alike. *)
Definition withCreation (env : Env) (answer : Outcome TextDocument) : Env :=
  mkEnv (clock env) (getUserInput env) (getUserInputComboSync env) (loadTextDocument env)
    (fun _ _ _ => answer) (showDocument env) (tokenize env) (getFileForDate env)
    (getFilePathInDateFolder env) (normalizeFilename env) (formatDate env)
    (denormalizeFilename env) (getFileInURI env) (writeInputToFile env)
    (getReferencedFiles env) (getFilesInNotesFolder env) (getPreviousJournalFiles env)
    (inlineTemplates env).

(** The host [env] with a parser that answers every text alike. *)
Definition withTokenizer (env : Env) (answer : Outcome Input) : Env :=
  mkEnv (clock env) (getUserInput env) (getUserInputComboSync env) (loadTextDocument env)
    (createSaveLoadTextDocument env) (showDocument env) (fun _ _ => answer)
    (getFileForDate env) (getFilePathInDateFolder env) (normalizeFilename env)
    (formatDate env) (denormalizeFilename env) (getFileInURI env) (writeInputToFile env)
    (getReferencedFiles env) (getFilesInNotesFolder env) (getPreviousJournalFiles env)
    (inlineTemplates env).

(** The host [env] with a writer that answers every call alike. *)
Definition withWriter (env : Env) (answer : Outcome TextDocument) : Env :=
  mkEnv (clock env) (getUserInput env) (getUserInputComboSync env) (loadTextDocument env)
    (createSaveLoadTextDocument env) (showDocument env) (tokenize env) (getFileForDate env)
    (getFilePathInDateFolder env) (normalizeFilename env) (formatDate env)
    (denormalizeFilename env) (getFileInURI env) (fun _ _ _ _ => answer)
    (getReferencedFiles env) (getFilesInNotesFolder env) (getPreviousJournalFiles env)
    (inlineTemplates env).

(** The host [env] with a path resolver that answers every date alike. *)
Definition withPathResolver (env : Env) (answer : Outcome string) : Env :=
  mkEnv (clock env) (getUserInput env) (getUserInputComboSync env) (loadTextDocument env)
    (createSaveLoadTextDocument env) (showDocument env) (tokenize env) (fun _ _ => answer)
    (getFilePathInDateFolder env) (normalizeFilename env) (formatDate env)
    (denormalizeFilename env) (getFileInURI env) (writeInputToFile env)
    (getReferencedFiles env) (getFilesInNotesFolder env) (getPreviousJournalFiles env)
    (inlineTemplates env).

(** The last handler of [openDay]: every reason is reported. *)
Definition openDayFailure (r : string) (t : Trace) : Outcome TextEditor * Trace :=
  let msg := ("Failed to open today's page. Reason: " ++ r)%string in
  (Rejected msg, t ++ [EvShowErrorMessage msg]).

(** [createNote] from the moment it has a document: show it, then ask for
    today's page without looking at the answer. *)
Definition noteShown (env : Env) (pageTemplate : TemplateCall) (doc : TextDocument)
    (t : Trace) : Outcome TextEditor * Trace :=
  let t' := t ++ [EvShowDocument doc] in
  match showDocument env t doc with
  | Resolved editor => (Resolved editor, snd (getPageForDayWith env pageTemplate (JInt 0) t'))
  | Rejected r => noteFailure r t'
  | Pending => (Pending, t')
  end.

(** [createNote] from its first [.catch] on, reached with the reason
    [filename] and the current value of the variable [content]. *)
Definition noteCreated (env : Env) (pageTemplate : TemplateCall) (filename : string)
    (content : option string) (t : Trace) : Outcome TextEditor * Trace :=
  if filename =? "cancel" then (Pending, t)
  else
    let t' := t ++ [EvCreateSaveLoadTextDocument filename content] in
    match createSaveLoadTextDocument env t filename content with
    | Resolved doc => noteShown env pageTemplate doc t'
    | Rejected r => noteFailure r t'
    | Pending => (Pending, t')
    end.

Definition isPrompt (e : Event) : bool :=
  match e with
  | EvGetUserInput _ | EvGetUserInputComboSync _ _ => true
  | _ => false
  end.

(** ** [Configuration]: settings and paths *)

(** [getFileExtension], for the value of the setting [ext]. *)
Definition getFileExtension (ext : string) : string :=
  let ext' := if prefix "." ext then dropChars 1 ext else ext in
  if (0 <? String.length ext')%nat then ext' else "md".

(** What the code uses of the modules [path] and [os]. *)
Record PathLib : Type := mkPathLib {
  pathResolve : list string -> string;
  pathJoin : list string -> string;
  homedir : string
}.

(** [getBasePath], for the value of the setting [base]. *)
Definition getBasePath (lib : PathLib) (base : string) : string :=
  if (0 <? String.length base)%nat then pathResolve lib [base]
  else pathResolve lib [homedir lib; "Journal"].

Definition replacePlaceholder (lib : PathLib) (base : string) (variableStr : string)
  : Completion string :=
  if variableStr =? "${journalFolder}" then Normal (getBasePath lib base)
  else Throw ("Error: Failed to susbstitute variable: " ++ variableStr)%string.

(** A line terminator of ECMAScript at the head of [s]: LF, CR, or the
    UTF-8 bytes of U+2028 or U+2029. *)
Definition lineTerminatorAt (s : string) : bool :=
  match s with
  | String c r =>
      let n := nat_of_ascii c in
      if (n =? 10)%nat || (n =? 13)%nat then true
      else if (n =? 226)%nat then
        match r with
        | String c1 (String c2 _) =>
            (nat_of_ascii c1 =? 128)%nat
            && ((nat_of_ascii c2 =? 168)%nat || (nat_of_ascii c2 =? 169)%nat)
        | _ => false
        end
      else false
  | EmptyString => false
  end.

(** The characters [.] can match from the head of [s] on. *)
Fixpoint lineRun (s : string) : string :=
  match s with
  | EmptyString => EmptyString
  | String c r => if lineTerminatorAt s then EmptyString else String c (lineRun r)
  end.

(** The longest prefix of [r] that ends with a closing brace. *)
Fixpoint uptoLastBrace (r : string) : option string :=
  match r with
  | EmptyString => None
  | String c r' =>
      match uptoLastBrace r' with
      | Some p => Some (String c p)
      | None => if Ascii.eqb c "}" then Some (String c EmptyString) else None
      end
  end.

(** [.+\}] at the head of the run [r]: one character at least, then as
    many as possible up to a closing brace. *)
Definition dotPlusBrace (r : string) : option string :=
  match r with
  | String c r' => option_map (String c) (uptoLastBrace r')
  | EmptyString => None
  end.

(** [pathStr.match(/\$\{.+\}/)]: the leftmost match, as long as it can be;
    the pattern has no group, so the match is the only element of the
    array. *)
Fixpoint matchVariable (s : string) : option string :=
  match s with
  | EmptyString => None
  | String c r =>
      let here :=
        if Ascii.eqb c "$" then
          match r with
          | String d r' =>
              if Ascii.eqb d "{"
              then option_map (fun m => String c (String d m)) (dotPlusBrace (lineRun r'))
              else None
          | EmptyString => None
          end
        else None in
      match here with
      | Some m => Some m
      | None => matchVariable r
      end
  end.

Definition TypeError_null (prop : string) : string :=
  ("TypeError: Cannot read property '" ++ prop ++ "' of null")%string.

(** [resolvePath] *)
Definition resolvePath (lib : PathLib) (base : string) (pathStr : string)
  : Completion string :=
  match matchVariable pathStr with
  | None => Throw (TypeError_null "forEach")
  | Some token =>
      match replacePlaceholder lib base token with
      | Throw e => Throw e
      | Normal v => Normal (jsReplace pathStr token v)
      end
  end.

Fixpoint noBrace (s : string) : bool :=
  match s with
  | EmptyString => true
  | String c r => negb (Ascii.eqb c "}") && noBrace r
  end.

(** A path library for the examples: [resolve] and [join] put a slash
    between their arguments. *)
Definition demoPathLib : PathLib :=
  mkPathLib (fun parts => String.concat "/" parts) (fun parts => String.concat "/" parts)
    "/home/me".

(** ** [Configuration]: the note patterns *)

(** The handler of [getNotesFilePattern], up to its calls of
    [deferred.resolve]: the [catch] block takes over when the scope is not
    there. *)
Definition notesFileOf (config : Root) (_scopeId : option string) : Completion string :=
  match findScope (scopes config) _scopeId with
  | Some sc => Normal (file (note sc))
  | None =>
      match findScope (scopes config) (Some SCOPE_DEFAULT) with
      | Some dflt => Normal (file (note dflt))
      | None => Throw (TypeError_undefined "note")
      end
  end.

(** The handler of [getNotesPathPattern]: it reads the same field. *)
Definition notesPathOf (config : Root) (_scopeId : option string) : Completion string :=
  match findScope (scopes config) _scopeId with
  | Some sc => Normal (file (note sc))
  | None =>
      match findScope (scopes config) (Some SCOPE_DEFAULT) with
      | Some dflt => Normal (file (note dflt))
      | None => Throw (TypeError_undefined "note")
      end
  end.

Definition notesPatternLookup (handler : Root -> option string -> Completion string)
    (journalConfig : Completion (Promise Root)) (_scopeId : option string)
  : Completion (Promise string) :=
  match journalConfig with
  | Throw e => Throw e
  | Normal cfg =>
      Normal (promise tt
        (await cfg
           >>then (fun config =>
              complete (handler config _scopeId) >>then (fun pattern =>
              resolve_ pattern))
           >>catch (fun err => reject_ err)))
  end.

Definition getNotesFilePattern (_scopeId : option string) : Completion (Promise string) :=
  notesPatternLookup notesFileOf getJournalConfig _scopeId.

Definition getNotesPathPattern (_scopeId : option string) : Completion (Promise string) :=
  notesPatternLookup notesPathOf getJournalConfig _scopeId.

Definition workshopScope : Scope :=
  mkScope "workshop" (mkPage [] "notes" "note") (mkPage [] "entries" "entry").
Definition workScope : Scope :=
  mkScope "work" (mkPage [] "work/notes" "work-note")
    (mkPage [workTaskTemplate] "entries" "entry").

(** ** [Configuration]: the templates directory

    The calls to [fs], to [util.checkIfFileIsAccessible] and to the
    extension registry are recorded in a trace of their own; the chains
    are those of the first part, over this trace and without closure
    variables. *)

Inductive FsEvent : Type :=
| FsAccess (p : string)
| FsMkdir (p : string)
| FsCopy (source target : string)
| FsReadFile (p : string).

Definition isFsWrite (e : FsEvent) : bool :=
  match e with
  | FsMkdir _ | FsCopy _ _ => true
  | _ => false
  end.

Record FsHost : Type := mkFsHost {
  paths : PathLib;
  (* util.checkIfFileIsAccessible *)
  checkIfFileIsAccessible : list FsEvent -> string -> Outcome unit;
  (* Q.nfcall(fs.mkdir, dir) *)
  mkdir : list FsEvent -> string -> Outcome unit;
  (* Q.nfcall(fs.readFile, file, "utf-8") *)
  readFile : list FsEvent -> string -> Outcome string;
  (* vscode.extensions.getExtension("pajoma.vscode-journal"), by its path *)
  extensionPath : option string
}.

(** The settings [base] and [templates-directory]. *)
Record Settings : Type := mkSettings {
  baseSetting : string;
  templatesDirectorySetting : option string
}.

Definition FsSt (T : Type) : Type := (Outcome T * list FsEvent)%type.
Definition FsChain (T A : Type) : Type := FsSt T -> Outcome A * FsSt T.
Definition FsPromise (T : Type) : Type := list FsEvent -> Outcome T * list FsEvent.

Section FsChains.
Context {T : Type}.

Definition fsRet {A} (a : A) : FsChain T A := fun s => (Resolved a, s).

Definition fsThrow {A} (e : string) : FsChain T A := fun s => (Rejected e, s).

Definition fsThen {A B} (p : FsChain T A) (f : A -> FsChain T B) : FsChain T B :=
  fun s =>
    match p s with
    | (Resolved a, s') => f a s'
    | (Rejected r, s') => (Rejected r, s')
    | (Pending, s') => (Pending, s')
    end.

Definition fsCatch {A} (p : FsChain T A) (h : string -> FsChain T A) : FsChain T A :=
  fun s =>
    match p s with
    | (Resolved a, s') => (Resolved a, s')
    | (Rejected r, s') => h r s'
    | (Pending, s') => (Pending, s')
    end.

Definition fsDetach {A} (p : FsChain T A) : FsChain T unit :=
  fun s => (Resolved tt, snd (p s)).

Definition fsSettle (o : Outcome T) : FsChain T unit :=
  fun s =>
    match fst s with
    | Pending => (Resolved tt, (o, snd s))
    | _ => (Resolved tt, s)
    end.

Definition fsCall {A} (e : FsEvent) (answer : list FsEvent -> Outcome A) : FsChain T A :=
  fun s => (answer (snd s), (fst s, snd s ++ [e])).

Definition fsEmit (e : FsEvent) : FsChain T unit :=
  fun s => (Resolved tt, (fst s, snd s ++ [e])).

Definition fsAwait {A} (f : FsPromise A) : FsChain T A :=
  fun s => (fst (f (snd s)), (fst s, snd (f (snd s)))).

Definition fsComplete {A} (c : Completion A) : FsChain T A :=
  match c with
  | Normal a => fsRet a
  | Throw e => fsThrow e
  end.

(** [Q.all] of an array: the promises are made in the order of the array;
    a rejection wins over a promise that is still pending. *)
Fixpoint fsAll {A} (ps : list (FsChain T A)) : FsChain T (list A) :=
  fun s =>
    match ps with
    | [] => (Resolved [], s)
    | p :: rest =>
        let r1 := p s in
        let r2 := fsAll rest (snd r1) in
        (match fst r1, fst r2 with
         | Rejected r, _ => Rejected r
         | _, Rejected r => Rejected r
         | Resolved a, Resolved l => Resolved (a :: l)
         | _, _ => Pending
         end, snd r2)
    end.
End FsChains.

Definition fsPromise {T A : Type} (body : FsChain T A) : FsPromise T :=
  fun t => snd (body (Pending, t)).

Notation "p '>>fsThen' f" := (fsThen p f) (at level 50, left associativity).
Notation "p '>>fsCatch' h" := (fsCatch p h) (at level 50, left associativity).

(** [getConfigFileDefinitions]: the map from keys to files. *)
Definition getConfigFileDefinitions : list (string * (string * string)) :=
  [ ("tpl.entry", ("Template for journal entries", "journal.page-template.md"));
    ("tpl.note", ("Template for notes", "journal.note-template.md")) ].

(** [getConfigFileDefinitions().get(key).filename] *)
Definition configFilename (key : string) : Completion string :=
  match find (fun e => fst e =? key) getConfigFileDefinitions with
  | Some e => Normal (snd (snd e))
  | None => Throw (TypeError_undefined "filename")
  end.

Section TemplatesDirectory.
Variable h : FsHost.
Variable settings : Settings.

(** [copyTask]: the streams are piped and the promise is resolved at once;
    what becomes of the copy is not awaited. *)
Definition copyTask (source target file : string) : FsPromise unit :=
  fsPromise
    (fsDetach
       (fsEmit (FsCopy (pathJoin (paths h) [source; file]) (pathJoin (paths h) [target; file]))
          >>fsThen (fun _ => fsSettle (Resolved tt)))).

(** [initializeTemplateDir], called from inside a handler. *)
Definition initializeTemplateDir {T : Type} (configDir : string) : FsChain T unit :=
  match extensionPath h with
  | None => fsThrow (TypeError_undefined "extensionPath")
  | Some extPath =>
      let source := pathResolve (paths h) [extPath; "res"; "configs"] in
      fsAwait
        (fsPromise
           (fsAll
              [ fsAwait (copyTask source configDir "journal.page-template.md");
                fsAwait (copyTask source configDir "journal.note-template.md");
                fsAwait (copyTask source configDir "journal.inline-templates.json");
                fsDetach
                  (fsCall (FsAccess (pathJoin (paths h) [configDir; "settings.json"]))
                          (fun t => checkIfFileIsAccessible h t
                                      (pathJoin (paths h) [configDir; "settings.json"]))
                     >>fsCatch (fun _ =>
                        fsDetach (fsAwait (copyTask source configDir "settings.json")))) ]
              >>fsThen (fun _ => fsSettle (Resolved tt))
              >>fsCatch (fun err => fsSettle (Rejected ("Error copying: " ++ err)%string))))
  end.

(** The directory [getTemplatesDirectory] decides on, inside [Q.fcall]. *)
Definition configuredTemplatesDirectory : Completion string :=
  match templatesDirectorySetting settings with
  | Some configDir =>
      if (0 <? String.length configDir)%nat
      then resolvePath (paths h) (baseSetting settings) configDir
      else Normal (pathResolve (paths h)
                     [getBasePath (paths h) (baseSetting settings); ".vscode"])
  | None =>
      Normal (pathResolve (paths h) [getBasePath (paths h) (baseSetting settings); ".vscode"])
  end.

Definition getTemplatesDirectory : FsPromise string :=
  fsPromise
    (fsDetach
       (fsComplete configuredTemplatesDirectory >>fsThen (fun configDir =>
        fsCall (FsAccess configDir) (fun t => checkIfFileIsAccessible h t configDir)
          >>fsCatch (fun err => fsCall (FsMkdir configDir) (fun t => mkdir h t configDir))
          >>fsThen (fun _ =>
             let filePath := pathJoin (paths h) [configDir; "journal.page-template.md"] in
             fsCall (FsAccess filePath) (fun t => checkIfFileIsAccessible h t filePath))
          >>fsCatch (fun err => initializeTemplateDir configDir)
          >>fsThen (fun _ => fsSettle (Resolved configDir))
          >>fsCatch (fun err =>
             fsSettle (Rejected ("Failed to initialize the configuration: " ++ err)%string))))).

(** The body shared by [getJournalEntryTemplate] and [getNotesTemplate]. *)
Definition readTemplate (key failure : string) : FsPromise string :=
  fsPromise
    (fsAwait getTemplatesDirectory
       >>fsThen (fun configPath =>
          fsComplete (configFilename key) >>fsThen (fun filename =>
          fsCall (FsReadFile (pathJoin (paths h) [configPath; filename]))
                 (fun t => readFile h t (pathJoin (paths h) [configPath; filename]))))
       >>fsThen (fun data => fsSettle (Resolved data))
       >>fsCatch (fun reason => fsSettle (Rejected (failure ++ reason)%string))).

Definition getJournalEntryTemplate : FsPromise string :=
  readTemplate "tpl.entry" "Failed to get page template. Reason: ".

Definition getNotesTemplate : FsPromise string :=
  readTemplate "tpl.note" "Failed to get note template. Reason: ".

End TemplatesDirectory.

(** A host for the examples: the extension is installed under
    [/ext]; what is accessible, and whether [mkdir] succeeds, is given. *)
Definition demoFsHost (accessible : string -> bool) (mkdirAnswer : Outcome unit) : FsHost :=
  mkFsHost demoPathLib
    (fun _ p => if accessible p then Resolved tt else Rejected ("ENOENT: " ++ p)%string)
    (fun _ _ => mkdirAnswer)
    (fun _ p => Resolved ("content of " ++ p)%string)
    (Some "/ext").

Definition demoSettings : Settings := mkSettings "/data/journal" None.

(** ** Properties *)

(** Unfolds the chain combinators, so that a chain becomes a nest of
    matches on the answers of the collaborators. *)
Ltac unchain :=
  unfold promise, runVoid, exec, then_, catch_, detach, all2, await, complete,
    resolve_, reject_, settle, call, emit, getLocal, setLocal, ret, throw,
    newDate in *;
  cbn [fst snd deferred locals trace] in *.

(** Case analysis on the answer that the goal is waiting for. *)
Ltac answer :=
  match goal with
  | |- context [match ?o with Resolved _ => _ | Rejected _ => _ | Pending => _ end] =>
      destruct o eqn:?; cbn [fst snd deferred locals trace] in *
  | |- context [match ?o with Loaded _ => _ | LoadFailed _ _ => _ | LoadPending => _ end] =>
      destruct o eqn:?; cbn [fst snd deferred locals trace loadPromise] in *
  end.

(** One step of the symbolic run of a chain: the next answer that is
    still open is split into its cases. *)
Ltac run_step :=
  cbn [negb fst snd deferred locals trace loadPromise] in *; cbv beta iota;
  match goal with
  | |- context [?r =? "cancel"] => is_var r; destruct (r =? "cancel")
  | |- context [let (_, _) := ?p in _] =>
      lazymatch type of p with
      | (_ * St _ _)%type => fail
      | _ => destruct p
      end
  | |- context [match ?o with Resolved _ => _ | Rejected _ => _ | Pending => _ end] =>
      lazymatch o with
      | Resolved _ => fail
      | Rejected _ => fail
      | Pending => fail
      | deferred _ => fail
      | loadPromise ?l => destruct l
      | _ => destruct o
      end
  | |- context [match ?o with Loaded _ => _ | LoadFailed _ _ => _ | LoadPending => _ end] =>
      destruct o
  end.

(** *** String replacement *)

Lemma getSubstitution_noDollar (matched before after repl : string) :
  noDollar repl = true -> getSubstitution matched before after repl = repl.
Proof.
  induction repl as [|c rest IH]; simpl; intros H.
  - reflexivity.
  - apply andb_true_iff in H as [Hc Hrest].
    destruct (Ascii.eqb c "$"); simpl in Hc.
    + discriminate.
    + now rewrite IH.
Qed.

Lemma jsReplace_noDollar (s pat repl : string) :
  noDollar repl = true -> jsReplace s pat repl = replaceFirst s pat repl.
Proof.
  intros H. unfold jsReplace, replaceFirst.
  destruct (splitAtFirst pat s) as [[before after]|]; [|reflexivity].
  now rewrite getSubstitution_noDollar.
Qed.

Example jsReplace_first_only :
  jsReplace "# {header} / {header}" "{header}" "Tue" = "# Tue / {header}".
Proof. reflexivity. Qed.

Example jsReplace_dollar_patterns :
  jsReplace "# {header}" "{header}" "a$&b$$c$1" = "# a{header}b$c$1".
Proof. reflexivity. Qed.

(** *** The tokenizer *)

Example tokenize_offset_memo_flag :
  Parser.tokenize demoToday "+2 buy milk #task"
  = inr (mkInput "+2 buy milk #task" (JInt 2) (Some "buy milk") ["task"]).
Proof. vm_compute. reflexivity. Qed.

Example tokenize_iso_date :
  Parser.tokenize demoToday "2023-01-15" = inr (mkInput "2023-01-15" (JInt 5) None []).
Proof. vm_compute. reflexivity. Qed.

Example tokenize_unrecognized :
  Parser.tokenize demoToday "banana" = inl (Parser.UnrecognizedToken "banana").
Proof. vm_compute. reflexivity. Qed.

Example tokenize_next_weekday :
  Parser.tokenize demoToday "next wed call"
  = inr (mkInput "next wed call" (JInt 1) (Some "call") []).
Proof. vm_compute. reflexivity. Qed.

(** C9. Tokenizing the empty string does not fail, whatever the day is:
    the result is an Input with offset 0 (today), without memo and without
    flags. *)
Theorem tokenize_empty (today : Parser.CalendarDate) :
  exists input,
    Parser.tokenize today EmptyString = inr input
    /\ offset input = JInt 0
    /\ memo input = None
    /\ flags input = []
    /\ hasMemo input = false
    /\ hasFlags input = false.
Proof.
  exists (mkInput EmptyString (JInt 0) None []). repeat split.
Qed.

(** *** Memo insertion *)

(** What [addMemo] does on every input: it writes only when the Input has
    both a memo and a flag. *)
Lemma addMemo_run (env : Env) (input : Input) (doc : TextDocument) (t : Trace) :
  addMemo env input doc t =
  if hasMemo input && hasFlags input then
    (match writeInputToFile env t doc (mkPosition 2 0) input with
     | Resolved doc' => Resolved doc'
     | Rejected _ => Rejected "Failed to add memo"
     | Pending => Pending
     end,
     t ++ [EvWriteInputToFile doc (mkPosition 2 0) input])
  else (Resolved doc, t).
Proof.
  unfold addMemo.
  destruct (hasMemo input), (hasFlags input); cbn [negb orb andb]; unchain;
    try reflexivity.
  answer; reflexivity.
Qed.

(** C1, as stated, fails: an Input with a memo but without a flag leaves
    the page as it is, and the writer is not called. *)
Lemma addMemo_memo_without_flag_not_written :
  let env := demoEnv Pending everyPageLoads (Resolved []) (Resolved []) in
  hasMemo memoOnly = true
  /\ addMemo env memoOnly demoDoc [] = (Resolved demoDoc, [])
  /\ ~ (exists pos, In (EvWriteInputToFile demoDoc pos memoOnly)
                       (snd (addMemo env memoOnly demoDoc []))).
Proof.
  cbn. repeat split. intros [pos []].
Qed.

(** C1, amended.  When the Input lacks a memo or lacks flags, [addMemo]
    resolves with the page it was given and calls nothing.  When it has
    both, the writer is called once, for line 2, column 0 of the page, and
    the promise follows the writer: resolved with the document the writer
    returns, rejected with "Failed to add memo" when the writer fails. *)
Theorem addMemo_writes_iff_memo_and_flags
    (env : Env) (input : Input) (doc : TextDocument) (t : Trace) :
  (hasMemo input && hasFlags input = false ->
     addMemo env input doc t = (Resolved doc, t))
  /\ (hasMemo input && hasFlags input = true ->
       snd (addMemo env input doc t) = t ++ [EvWriteInputToFile doc (mkPosition 2 0) input]
       /\ (forall doc', writeInputToFile env t doc (mkPosition 2 0) input = Resolved doc' ->
              fst (addMemo env input doc t) = Resolved doc')
       /\ (forall r, writeInputToFile env t doc (mkPosition 2 0) input = Rejected r ->
              fst (addMemo env input doc t) = Rejected "Failed to add memo")).
Proof.
  rewrite addMemo_run. split; intros ->.
  - reflexivity.
  - cbn. repeat split; intros ? ->; reflexivity.
Qed.

Lemma addMemo_writes_iff_memo_and_flags_witness :
  let env := demoEnv Pending everyPageLoads (Resolved []) (Resolved []) in
  addMemo env memoOnly demoDoc [] = (Resolved demoDoc, [])
  /\ snd (addMemo env memoAndTask demoDoc [])
     = [EvWriteInputToFile demoDoc (mkPosition 2 0) memoAndTask]
  /\ fst (addMemo env memoAndTask demoDoc [])
     = Resolved (mkDoc "/journal/day19367.md" "# day 19367buy milk").
Proof.
  intros env.
  pose proof (addMemo_writes_iff_memo_and_flags env memoOnly demoDoc []) as [H1 _].
  pose proof (addMemo_writes_iff_memo_and_flags env memoAndTask demoDoc []) as [_ H2].
  split; [apply H1; reflexivity|].
  destruct (H2 eq_refl) as (Ht & Hres & _).
  split; [exact Ht|].
  apply Hres. reflexivity.
Defined.

(** *** Template lookup *)

Lemma scopedTemplate_in_scope (templateId : string) (val : Root) (sid : option string)
    (sc : Scope) (tpl : InlineTemplate) :
  findScope (scopes val) sid = Some sc ->
  findTemplate (templates (entry sc)) templateId = Some tpl ->
  scopedTemplate templateId val sid = Normal (Some tpl).
Proof.
  intros Hs Ht. unfold scopedTemplate. rewrite Hs. cbn. now rewrite Ht.
Qed.

(** The fallback of the file-link and task lookups: a scope that is there
    but has no such template hands over to the default scope. *)
Lemma scopedTemplate_falls_back (templateId : string) (val : Root) (sid : option string)
    (sc dflt : Scope) :
  findScope (scopes val) sid = Some sc ->
  findTemplate (templates (entry sc)) templateId = None ->
  findScope (scopes val) (Some SCOPE_DEFAULT) = Some dflt ->
  scopedTemplate templateId val sid
  = Normal (findTemplate (templates (entry dflt)) templateId).
Proof.
  intros Hs Ht Hd. unfold scopedTemplate. rewrite Hs. cbn. rewrite Ht, Hd. reflexivity.
Qed.

(** A scope id that matches no scope is an error, default scope or not. *)
Lemma scopedTemplate_unknown_scope (templateId : string) (val : Root) (sid : option string) :
  findScope (scopes val) sid = None ->
  scopedTemplate templateId val sid = Throw (TypeError_undefined "entry").
Proof.
  intros Hs. unfold scopedTemplate. now rewrite Hs.
Qed.

Example scopedLookup_work_file :
  match scopedLookup (loadedConfig demoRoot) "file" (Some "work") with
  | Normal p => fst (p []) = Resolved (Some fileTemplate)
  | Throw _ => False
  end.
Proof. reflexivity. Qed.

Example scopedLookup_unknown_scope :
  match scopedLookup (loadedConfig demoRoot) "file" (Some "home") with
  | Normal p => fst (p []) = Rejected (TypeError_undefined "entry")
  | Throw _ => False
  end.
Proof. reflexivity. Qed.

Lemma getFileLinkTemplate_throws (sid : option string) :
  getFileLinkTemplate sid = Throw "Not yet implemented".
Proof. reflexivity. Qed.

Lemma getTaskTemplate_throws (sid : option string) :
  getTaskTemplate sid = Throw "Not yet implemented".
Proof. reflexivity. Qed.

(** C4, the code at the failing input.  With only the default templates
    configured, the header lookup for the scope "work" throws a TypeError
    instead of returning the default header, the memo lookup resolves with
    nothing, and the file-link and task lookups throw for every scope. *)
Theorem template_lookup_no_default_fallback :
  getHeaderTemplate (Some demoTemplates) None = Normal "# {header}"
  /\ getHeaderTemplate (Some demoTemplates) (Some "work")
     = Throw (TypeError_undefined "template")
  /\ fst (getMemoTemplate (Some demoTemplates) None [])
     = Resolved (Some (mkInlineTemplate "default.entry.memo" "default.entry.memo"
                         "- {content}" EmptyString))
  /\ fst (getMemoTemplate (Some demoTemplates) (Some "work") []) = Resolved None
  /\ getFileLinkTemplate (Some "work") = Throw "Not yet implemented"
  /\ getTaskTemplate (Some "work") = Throw "Not yet implemented".
Proof. repeat split. Qed.

(** *** Synchronization *)

Lemma unreferenced_false_iff (referencedFiles : list string) (file : string) :
  unreferenced referencedFiles file = false <-> In file referencedFiles.
Proof.
  unfold unreferenced. split.
  - destruct (find _ referencedFiles) as [m|] eqn:E; [intros _|discriminate].
    apply find_some in E as [Hin Heq]. apply String.eqb_eq in Heq. now subst.
  - intros Hin. destruct (find _ referencedFiles) eqn:E; [reflexivity|].
    apply (find_none _ _ E) in Hin. now rewrite String.eqb_refl in Hin.
Qed.

(** The loop over the found files, when the template lookup throws: the
    first unreferenced file ends it, and nothing is called. *)
Lemma forEach_lookup_throws {L T : Type} (e : string)
    (referencedFiles foundFiles : list string) (s : St L T) :
  forEach foundFiles (fun file =>
    match find (fun m => m =? file) referencedFiles with
    | None => throw e
    | Some _ => ret tt
    end) s
  = (if existsb (unreferenced referencedFiles) foundFiles then Rejected e else Resolved tt, s).
Proof.
  induction foundFiles as [|file rest IH]; cbn [forEach existsb].
  - reflexivity.
  - unfold then_ at 1. unfold unreferenced at 1.
    destruct (find (fun m => m =? file) referencedFiles); cbn.
    + exact IH.
    + reflexivity.
Qed.

(** Every run of [synchronizeReferencedFiles], on every host. *)
Lemma synchronize_run (env : Env) (doc : TextDocument) (t : Trace) :
  synchronizeReferencedFiles env doc t = t ++ syncEvents env doc t.
Proof.
  unfold synchronizeReferencedFiles, synchronizeWith, syncEvents.
  rewrite getFileLinkTemplate_throws.
  unfold runVoid, catch_, then_ at 1, all2, call. cbn [fst snd deferred locals trace].
  destruct (getReferencedFiles env t doc) as [refs|r|];
    destruct (getFilesInNotesFolder env (t ++ [EvGetReferencedFiles doc]) doc) as [found|r'|];
    cbn [fst snd deferred locals trace];
    try (unfold emit, syncFailureMessage; cbn; now rewrite <- !app_assoc);
    try (cbn; now rewrite <- !app_assoc).
  rewrite (forEach_lookup_throws "Not yet implemented").
  destruct (existsb (unreferenced refs) found); unfold emit, syncFailureMessage; cbn;
    now rewrite <- !app_assoc.
Qed.

Lemma syncEvents_no_mutation (env : Env) (doc : TextDocument) (t : Trace) :
  existsb isMutation (syncEvents env doc t) = false.
Proof.
  unfold syncEvents.
  destruct (getReferencedFiles env t doc);
    destruct (getFilesInNotesFolder env (t ++ [EvGetReferencedFiles doc]) doc);
    try reflexivity.
  destruct (existsb (unreferenced _) _); reflexivity.
Qed.

(** C3, the code at the failing input.  One file in the notes folder, not
    linked from the page: the template lookup throws, no link is inserted,
    and the failure is shown. *)
Theorem synchronize_unreferenced_file_not_linked :
  let env := demoEnv Pending everyPageLoads (Resolved []) (Resolved ["shopping.md"]) in
  synchronizeReferencedFiles env demoDoc []
  = [EvGetReferencedFiles demoDoc; EvGetFilesInNotesFolder demoDoc;
     syncFailureMessage "Not yet implemented"]
  /\ existsb isInsertContent (synchronizeReferencedFiles env demoDoc []) = false.
Proof. split; reflexivity. Qed.

(** C5. Running the synchronization twice in a row: the second run makes
    the two listing calls, possibly shows a message, and edits nothing, so
    it appends no line to the page. *)
Theorem synchronize_twice_no_edit (env : Env) (doc : TextDocument) (t : Trace) :
  let t1 := synchronizeReferencedFiles env doc t in
  let t2 := synchronizeReferencedFiles env doc t1 in
  exists evs, t2 = t1 ++ evs
              /\ existsb isMutation evs = false
              /\ existsb isInsertContent evs = false.
Proof.
  cbn zeta. exists (syncEvents env doc (synchronizeReferencedFiles env doc t)).
  split; [apply synchronize_run|].
  split; [apply syncEvents_no_mutation|].
  generalize (synchronizeReferencedFiles env doc t) as t1. intros t1.
  unfold syncEvents.
  destruct (getReferencedFiles env t1 doc);
    destruct (getFilesInNotesFolder env (t1 ++ [EvGetReferencedFiles doc]) doc);
    try reflexivity.
  destruct (existsb (unreferenced _) _); reflexivity.
Qed.

Lemma detached_insert {L T : Type} (tplPromise : Promise (option InlineTemplate))
    (tpl : option InlineTemplate) (ev : option InlineTemplate -> Event) (s : St L T) :
  (forall t, tplPromise t = (Resolved tpl, t)) ->
  detach (await tplPromise >>then (fun tplInfo => emit (ev tplInfo))) s
  = (Resolved tt, mkSt (deferred s) (locals s) (trace s ++ [ev tpl])).
Proof.
  intros Hpure. unfold detach, then_, await, emit. now rewrite Hpure.
Qed.

(** The designed behaviour of the loop, for a journal configuration that
    is there: one link per found file that the page does not reference, in
    the order of the folder listing, and nothing for the others. *)
Lemma forEach_links_unreferenced (env : Env) (doc : TextDocument)
    (tplPromise : Promise (option InlineTemplate)) (tpl : option InlineTemplate)
    (referencedFiles foundFiles : list string) (s : St unit unit) :
  (forall t, tplPromise t = (Resolved tpl, t)) ->
  forEach foundFiles (fun file =>
    match find (fun m => m =? file) referencedFiles with
    | None =>
        detach
          (await tplPromise >>then (fun tplInfo =>
             emit (EvInsertContent doc tplInfo
                     ("{label}", denormalizeFilename env file)
                     ("{link}",
                      ("./" ++ getFileInURI env (uri_path doc) ++ "/" ++ file)%string))))
    | Some _ => ret tt
    end) s
  = (Resolved tt,
     mkSt (deferred s) (locals s)
       (trace s ++ map (linkEvent env doc tpl)
                     (filter (unreferenced referencedFiles) foundFiles))).
Proof.
  intros Hpure. revert s.
  induction foundFiles as [|file rest IH]; intros s; cbn [forEach filter map].
  - unfold ret. rewrite app_nil_r. now destruct s.
  - unfold then_ at 1. unfold unreferenced at 1.
    destruct (find (fun m => m =? file) referencedFiles).
    + unfold ret at 1. apply IH.
    + rewrite (detached_insert tplPromise tpl) by exact Hpure.
      rewrite IH. cbn [fst snd deferred locals trace map].
      unfold linkEvent at 2. now rewrite <- app_assoc.
Qed.

Lemma synchronizeWith_links_unreferenced (env : Env) (doc : TextDocument)
    (tplPromise : Promise (option InlineTemplate)) (tpl : option InlineTemplate)
    (referencedFiles foundFiles : list string) (t : Trace) :
  (forall t', tplPromise t' = (Resolved tpl, t')) ->
  getReferencedFiles env t doc = Resolved referencedFiles ->
  getFilesInNotesFolder env (t ++ [EvGetReferencedFiles doc]) doc = Resolved foundFiles ->
  synchronizeWith env (Normal tplPromise) doc t
  = t ++ [EvGetReferencedFiles doc; EvGetFilesInNotesFolder doc]
      ++ map (linkEvent env doc tpl) (filter (unreferenced referencedFiles) foundFiles).
Proof.
  intros Hpure Hrefs Hfound. unfold synchronizeWith.
  unfold runVoid, catch_, then_ at 1, all2, call. cbn [fst snd deferred locals trace].
  rewrite Hrefs, Hfound. cbn [fst snd].
  rewrite (forEach_links_unreferenced env doc tplPromise tpl) by exact Hpure.
  cbn [fst snd deferred locals trace]. now rewrite <- !app_assoc.
Qed.

Example synchronize_with_loaded_config :
  let env := demoEnv Pending everyPageLoads (Resolved ["a.md"]) (Resolved ["a.md"; "b.md"]) in
  match scopedLookup (loadedConfig demoRoot) "file" None with
  | Normal p =>
      synchronizeWith env (Normal p) demoDoc []
      = [EvGetReferencedFiles demoDoc; EvGetFilesInNotesFolder demoDoc;
         EvInsertContent demoDoc (Some fileTemplate)
           ("{label}", "b.md") ("{link}", "./day19367/b.md")]
  | Throw _ => False
  end.
Proof. reflexivity. Qed.

(** *** Getting the page of a day *)

Lemma await_run {L T A : Type} (f : Promise A) (s : St L T) :
  await f s = (fst (f (trace s)), mkSt (deferred s) (locals s) (snd (f (trace s)))).
Proof.
  unfold await. now destruct (f (trace s)).
Qed.

(** The promise in the promise: it resolves with the created document, and
    stays pending when the template or the creation fails. *)
Lemma createPageFrom_run (env : Env) (answer : Trace -> Outcome string)
    (offset : JsNumber) (path : string) (t : Trace) :
  createPageFrom env answer offset path t =
  match answer t with
  | Resolved tpl =>
      let content := jsReplace tpl "{header}" (formatDate env (requestedDate env offset t)) in
      (match createSaveLoadTextDocument env (t ++ [EvGetPageTemplate]) path (Some content) with
       | Resolved doc => Resolved doc
       | _ => Pending
       end,
       t ++ [EvGetPageTemplate; EvCreateSaveLoadTextDocument path (Some content)])
  | _ => (Pending, t ++ [EvGetPageTemplate])
  end.
Proof.
  unfold createPageFrom, requestedDate. unchain.
  answer; try reflexivity.
  rewrite <- app_assoc. cbn [app].
  answer; reflexivity.
Qed.

(** The handler neither reads nor settles the deferred of its caller. *)
Lemma createPageWith_run {L T : Type} (env : Env) (pageTemplate : TemplateCall)
    (offset : JsNumber) (path : string) (s : St L T) :
  createPageWith env pageTemplate offset path s
  = (fst (createPageOutcome env pageTemplate offset path (trace s)),
     mkSt (deferred s) (locals s)
       (snd (createPageOutcome env pageTemplate offset path (trace s)))).
Proof.
  unfold createPageWith, createPageOutcome. destruct pageTemplate as [answer|e].
  - apply await_run.
  - unfold throw. now destruct s.
Qed.

(** The load-or-create chain, answer by answer. *)
Lemma loadOrCreateFromWith_run (env : Env) (pageTemplate : TemplateCall)
    (offset : JsNumber) (date : JsDate) (t : Trace) :
  loadOrCreateFromWith env pageTemplate offset date t =
  match getFileForDate env t date with
  | Resolved p =>
      match loadTextDocument env (t ++ [EvGetFileForDate date]) p with
      | Loaded doc => (Resolved doc, t ++ [EvGetFileForDate date; EvLoadTextDocument p])
      | LoadFailed _ value =>
          createPageOutcome env pageTemplate offset value
            (t ++ [EvGetFileForDate date; EvLoadTextDocument p])
      | LoadPending => (Pending, t ++ [EvGetFileForDate date; EvLoadTextDocument p])
      end
  | Rejected r => createPageOutcome env pageTemplate offset r (t ++ [EvGetFileForDate date])
  | Pending => (Pending, t ++ [EvGetFileForDate date])
  end.
Proof.
  unfold loadOrCreateFromWith, loadOrCreateWith.
  unfold then_, catch_, call. cbn [fst snd deferred locals trace].
  destruct (getFileForDate env t date) as [p|r|]; cbn [fst snd deferred locals trace].
  - destruct (loadTextDocument env (t ++ [EvGetFileForDate date]) p) as [doc|cause value|];
      cbn [loadPromise fst snd deferred locals trace];
      try rewrite createPageWith_run; cbn [fst snd deferred locals trace];
      rewrite <- app_assoc; cbn [app]; try reflexivity.
    now destruct (createPageOutcome env pageTemplate offset value _).
  - rewrite createPageWith_run. cbn [fst snd deferred locals trace].
    now destruct (createPageOutcome env pageTemplate offset r _).
  - reflexivity.
Qed.

(** The chain neither reads nor settles the deferred of its caller. *)
Lemma loadOrCreateWith_frame {L T : Type} (env : Env) (pageTemplate : TemplateCall)
    (offset : JsNumber) (date : JsDate) (s : St L T) :
  loadOrCreateWith env pageTemplate offset date s
  = (fst (loadOrCreateFromWith env pageTemplate offset date (trace s)),
     mkSt (deferred s) (locals s)
       (snd (loadOrCreateFromWith env pageTemplate offset date (trace s)))).
Proof.
  unfold loadOrCreateFromWith, loadOrCreateWith.
  unfold then_, catch_, call. cbn [fst snd deferred locals trace].
  destruct (getFileForDate env (trace s) date) as [p|r|]; cbn [fst snd deferred locals trace].
  - destruct (loadTextDocument env (trace s ++ [EvGetFileForDate date]) p)
      as [doc|cause value|];
      cbn [loadPromise fst snd deferred locals trace]; try reflexivity.
    rewrite !createPageWith_run. reflexivity.
  - rewrite !createPageWith_run. reflexivity.
  - reflexivity.
Qed.

Lemma createPageFrom_never_rejects (env : Env) (answer : Trace -> Outcome string)
    (offset : JsNumber) (path : string) (t : Trace) (r : string) :
  fst (createPageFrom env answer offset path t) <> Rejected r.
Proof.
  rewrite createPageFrom_run.
  destruct (answer t); cbn; try discriminate.
  destruct (createSaveLoadTextDocument env _ path _); discriminate.
Qed.

(** With a template method that returns a promise, the chain has no
    rejection to hand on. *)
Lemma loadOrCreateFromWith_never_rejects (env : Env) (answer : Trace -> Outcome string)
    (offset : JsNumber) (date : JsDate) (t : Trace) (r : string) :
  fst (loadOrCreateFromWith env (Normal answer) offset date t) <> Rejected r.
Proof.
  rewrite loadOrCreateFromWith_run. unfold createPageOutcome.
  destruct (getFileForDate env t date) as [p|r'|]; try discriminate.
  - destruct (loadTextDocument env _ p); try discriminate.
    apply createPageFrom_never_rejects.
  - apply createPageFrom_never_rejects.
Qed.

(** [getPageForDay] on every host: the guard settles the promise for a
    NaN offset and the chain runs all the same. *)
Lemma getPageForDayWith_run (env : Env) (pageTemplate : TemplateCall)
    (offset : JsNumber) (t : Trace) :
  getPageForDayWith env pageTemplate offset t =
  let guard : Outcome TextDocument :=
    if isNaN offset then Rejected "Journal: Not a valid value for offset" else Pending in
  let chain := loadOrCreateFromWith env pageTemplate offset (requestedDate env offset t) t in
  match fst chain with
  | Resolved doc =>
      (if isNaN offset then guard else Resolved doc,
       synchronizeReferencedFiles env doc (snd chain))
  | Rejected _ => (if isNaN offset then guard else Rejected "Failed to open file", snd chain)
  | Pending => (guard, snd chain)
  end.
Proof.
  unfold getPageForDayWith, requestedDate, promise, newDate.
  unfold then_, catch_, reject_, resolve_, settle, ret, exec.
  destruct (isNaN offset); cbn [fst snd deferred locals trace];
    rewrite loadOrCreateWith_frame; cbn [fst snd deferred locals trace];
    destruct (fst (loadOrCreateFromWith env pageTemplate offset _ t)); reflexivity.
Qed.

Lemma in_synchronize (env : Env) (doc : TextDocument) (t : Trace) (e : Event) :
  In e t -> In e (synchronizeReferencedFiles env doc t).
Proof.
  intros H. rewrite synchronize_run. apply in_or_app. now left.
Qed.

(** The trace of [getPageForDay] extends the trace of its chain. *)
Lemma in_getPageForDayWith (env : Env) (pageTemplate : TemplateCall) (offset : JsNumber)
    (t : Trace) (e : Event) :
  In e (snd (loadOrCreateFromWith env pageTemplate offset (requestedDate env offset t) t)) ->
  In e (snd (getPageForDayWith env pageTemplate offset t)).
Proof.
  intros H. rewrite getPageForDayWith_run. cbn zeta.
  destruct (fst (loadOrCreateFromWith env pageTemplate offset _ t)); cbn [snd];
    try assumption.
  now apply in_synchronize.
Qed.

(** **** The code as it is: [Configuration] has no [getPageTemplate] *)

(** The first [.catch] handler of the sources throws wherever it runs. *)
Lemma loadOrCreateFrom_run (env : Env) (offset : JsNumber) (date : JsDate) (t : Trace) :
  loadOrCreateFrom env offset date t =
  match getFileForDate env t date with
  | Resolved p =>
      match loadTextDocument env (t ++ [EvGetFileForDate date]) p with
      | Loaded doc => (Resolved doc, t ++ [EvGetFileForDate date; EvLoadTextDocument p])
      | LoadFailed _ _ =>
          (Rejected (TypeError_not_a_function "this.config.getPageTemplate"),
           t ++ [EvGetFileForDate date; EvLoadTextDocument p])
      | LoadPending => (Pending, t ++ [EvGetFileForDate date; EvLoadTextDocument p])
      end
  | Rejected _ =>
      (Rejected (TypeError_not_a_function "this.config.getPageTemplate"),
       t ++ [EvGetFileForDate date])
  | Pending => (Pending, t ++ [EvGetFileForDate date])
  end.
Proof.
  unfold loadOrCreateFrom. rewrite loadOrCreateFromWith_run. reflexivity.
Qed.

Lemma getPageForDay_run (env : Env) (offset : JsNumber) (t : Trace) :
  getPageForDay env offset t =
  let guard : Outcome TextDocument :=
    if isNaN offset then Rejected "Journal: Not a valid value for offset" else Pending in
  let chain := loadOrCreateFrom env offset (requestedDate env offset t) t in
  match fst chain with
  | Resolved doc =>
      (if isNaN offset then guard else Resolved doc,
       synchronizeReferencedFiles env doc (snd chain))
  | Rejected _ => (if isNaN offset then guard else Rejected "Failed to open file", snd chain)
  | Pending => (guard, snd chain)
  end.
Proof.
  exact (getPageForDayWith_run env getPageTemplateCall offset t).
Qed.

Lemma in_getPageForDay (env : Env) (offset : JsNumber) (t : Trace) (e : Event) :
  In e (snd (loadOrCreateFrom env offset (requestedDate env offset t) t)) ->
  In e (snd (getPageForDay env offset t)).
Proof.
  exact (in_getPageForDayWith env getPageTemplateCall offset t e).
Qed.

(** The chain resolves only with a document that the loader gave. *)
Lemma loadOrCreateFrom_resolved (env : Env) (offset : JsNumber) (date : JsDate)
    (t t1 : Trace) (doc : TextDocument) :
  loadOrCreateFrom env offset date t = (Resolved doc, t1) ->
  exists p, getFileForDate env t date = Resolved p
            /\ loadTextDocument env (t ++ [EvGetFileForDate date]) p = Loaded doc
            /\ t1 = t ++ [EvGetFileForDate date; EvLoadTextDocument p].
Proof.
  rewrite loadOrCreateFrom_run.
  destruct (getFileForDate env t date) as [p|r|]; try discriminate.
  destruct (loadTextDocument env _ p) as [doc'|cause value|] eqn:Hload; try discriminate.
  intros H. injection H as -> <-. now exists p.
Qed.

(** What follows a failed load in the code as it is: the handler throws,
    the last [.catch] rejects, and no call is made after the load. *)
Lemma getPageForDay_after_failed_load
    (env : Env) (offset : JsNumber) (t : Trace) (p : string) (cause : IOCause)
    (value : string) :
  let date := requestedDate env offset t in
  getFileForDate env t date = Resolved p ->
  loadTextDocument env (t ++ [EvGetFileForDate date]) p = LoadFailed cause value ->
  getPageForDay env offset t
  = (Rejected (if isNaN offset then "Journal: Not a valid value for offset"
               else "Failed to open file"),
     t ++ [EvGetFileForDate date; EvLoadTextDocument p]).
Proof.
  intros date Hp Hload. rewrite getPageForDay_run. cbn zeta. fold date.
  rewrite loadOrCreateFrom_run, Hp, Hload. cbn [fst snd].
  now destruct (isNaN offset).
Qed.

(** The same when the path of the day is not to be had. *)
Lemma getPageForDay_after_failed_path
    (env : Env) (offset : JsNumber) (t : Trace) (r : string) :
  let date := requestedDate env offset t in
  getFileForDate env t date = Rejected r ->
  getPageForDay env offset t
  = (Rejected (if isNaN offset then "Journal: Not a valid value for offset"
               else "Failed to open file"),
     t ++ [EvGetFileForDate date]).
Proof.
  intros date Hp. rewrite getPageForDay_run. cbn zeta. fold date.
  rewrite loadOrCreateFrom_run, Hp. cbn [fst snd].
  now destruct (isNaN offset).
Qed.

(** **** The handler as it is written, given a template promise *)

(** The load-or-create chain after a failed load: the create branch. *)
Lemma loadOrCreateFromWith_load_failed (env : Env) (answer : Trace -> Outcome string)
    (offset : JsNumber) (date : JsDate) (t : Trace) (p : string) (cause : IOCause)
    (value : string) :
  getFileForDate env t date = Resolved p ->
  loadTextDocument env (t ++ [EvGetFileForDate date]) p = LoadFailed cause value ->
  loadOrCreateFromWith env (Normal answer) offset date t
  = createPageFrom env answer offset value
      (t ++ [EvGetFileForDate date; EvLoadTextDocument p]).
Proof.
  intros Hp Hload. rewrite loadOrCreateFromWith_run, Hp, Hload. reflexivity.
Qed.

(** What follows a failed load when the call of the template method
    returns a promise. *)
Lemma create_branch_after_failed_load
    (env : Env) (answer : Trace -> Outcome string) (offset : JsNumber) (t : Trace)
    (p : string) (cause : IOCause) (value : string) :
  let date := requestedDate env offset t in
  let t1 := t ++ [EvGetFileForDate date; EvLoadTextDocument p] in
  getFileForDate env t date = Resolved p ->
  loadTextDocument env (t ++ [EvGetFileForDate date]) p = LoadFailed cause value ->
  In EvGetPageTemplate (snd (getPageForDayWith env (Normal answer) offset t))
  /\ (forall tpl, answer t1 = Resolved tpl ->
        let content := jsReplace tpl "{header}" (formatDate env (requestedDate env offset t1)) in
        In (EvCreateSaveLoadTextDocument value (Some content))
           (snd (getPageForDayWith env (Normal answer) offset t))
        /\ (forall doc,
              isNaN offset = false ->
              createSaveLoadTextDocument env (t1 ++ [EvGetPageTemplate]) value (Some content)
              = Resolved doc ->
              fst (getPageForDayWith env (Normal answer) offset t) = Resolved doc))
  /\ (isNaN offset = false ->
      forall r, fst (getPageForDayWith env (Normal answer) offset t) <> Rejected r).
Proof.
  intros date t1 Hp Hload.
  pose proof (loadOrCreateFromWith_load_failed env answer offset date t p cause value
                Hp Hload) as Hchain.
  fold t1 in Hchain. rewrite createPageFrom_run in Hchain.
  split; [|split].
  - apply in_getPageForDayWith. fold date. rewrite Hchain.
    destruct (answer t1); cbn [snd]; apply in_or_app; right; cbn; tauto.
  - intros tpl Htpl content. rewrite Htpl in Hchain. fold content in Hchain. split.
    + apply in_getPageForDayWith. fold date. rewrite Hchain. cbn [snd].
      apply in_or_app. right. cbn. tauto.
    + intros doc Hnum Hcreate. rewrite getPageForDayWith_run. cbn zeta. fold date.
      rewrite Hchain, Hnum. cbn [fst]. rewrite Hcreate. reflexivity.
  - intros Hnum r. rewrite getPageForDayWith_run. cbn zeta. fold date. rewrite Hnum.
    pose proof (loadOrCreateFromWith_never_rejects env answer offset date t) as Hnever.
    destruct (fst (loadOrCreateFromWith env (Normal answer) offset date t)) as [doc|r'|];
      cbn [fst]; try discriminate.
    exfalso. now apply (Hnever r').
Qed.



(** C8, as stated, fails in the code: the page file is absent, the create
    branch is entered and throws at [this.config.getPageTemplate()], a
    method [Configuration] does not have.  No file is created and the
    promise is rejected with "Failed to open file".  The handler as it is
    written does what the claim says once that call returns a promise of
    the template: the file is created with
    [tpl.replace('{header}', formatted date)] for the requested offset and
    the created document is what [getPageForDay] resolves with; unless the
    formatted date has a [$] in it, which [replace] would expand, that
    content is the template with its first [{header}] replaced. *)
Theorem getPageForDay_absent_page_not_created
    (env : Env) (k : Z) (t : Trace) (p : string) (value : string) :
  let date := requestedDate env (JInt k) t in
  let t1 := t ++ [EvGetFileForDate date; EvLoadTextDocument p] in
  getFileForDate env t date = Resolved p ->
  loadTextDocument env (t ++ [EvGetFileForDate date]) p = LoadFailed FileNotFound value ->
  getPageForDay env (JInt k) t = (Rejected "Failed to open file", t1)
  /\ existsb isCreate (snd (getPageForDay env (JInt k) t)) = existsb isCreate t
  /\ (forall answer tpl doc,
        let header := formatDate env (requestedDate env (JInt k) t1) in
        let content := jsReplace tpl "{header}" header in
        answer t1 = Resolved tpl ->
        createSaveLoadTextDocument env (t1 ++ [EvGetPageTemplate]) value (Some content)
        = Resolved doc ->
        In (EvCreateSaveLoadTextDocument value (Some content))
           (snd (getPageForDayWith env (Normal answer) (JInt k) t))
        /\ fst (getPageForDayWith env (Normal answer) (JInt k) t) = Resolved doc
        /\ (noDollar header = true -> content = replaceFirst tpl "{header}" header)).
Proof.
  intros date t1 Hp Hload.
  rewrite (getPageForDay_after_failed_load env (JInt k) t p FileNotFound value Hp Hload).
  fold date t1. cbn [isNaN fst snd]. split; [reflexivity|]. split.
  - unfold t1. rewrite existsb_app. cbn. apply orb_false_r.
  - intros answer tpl doc. cbv zeta. intros Htpl Hcreate.
    destruct (create_branch_after_failed_load env answer (JInt k) t p FileNotFound value
                Hp Hload) as (_ & Hbranch & _).
    fold date t1 in Hbranch. specialize (Hbranch tpl Htpl). cbv zeta in Hbranch.
    destruct Hbranch as [Hin Hdoc].
    split; [exact Hin|]. split; [now apply Hdoc|].
    apply jsReplace_noDollar.
Qed.

Lemma getPageForDay_absent_page_not_created_witness :
  let env := demoEnv Pending noPageFound (Resolved []) (Resolved []) in
  let p := "/journal/day19370.md" in
  getPageForDay env (JInt 3) []
  = (Rejected "Failed to open file", [EvGetFileForDate (LocalDay 19370); EvLoadTextDocument p])
  /\ fst (getPageForDayWith env (Normal demoPageTemplate) (JInt 3) [])
     = Resolved (mkDoc p "# day 19370")
  /\ "# day 19370" = replaceFirst "# {header}" "{header}" "day 19370".
Proof.
  intros env p.
  destruct (getPageForDay_absent_page_not_created env 3 [] p p eq_refl eq_refl)
    as (Hrun & _ & Hdesign).
  split; [exact Hrun|].
  destruct (Hdesign demoPageTemplate "# {header}" (mkDoc p "# day 19370")
              eq_refl eq_refl) as (_ & Hdoc & Hcontent).
  split; [exact Hdoc|exact (Hcontent eq_refl)].
Defined.

(** C10. For a NaN offset the promise is rejected with "Journal: Not a
    valid value for offset", and the chain runs all the same: the path of
    the (invalid) date is asked for and the path is loaded.  When the load
    fails the handler of the failure runs as for any other offset: in the
    code as it is it throws at [this.config.getPageTemplate()] and the run
    ends there; with a template method that returns a promise it fetches
    the template and creates a file, the promise being rejected already. *)
Theorem getPageForDay_NaN_rejected_chain_runs (env : Env) (t : Trace) :
  fst (getPageForDay env JNaN t) = Rejected "Journal: Not a valid value for offset"
  /\ (exists evs, snd (getPageForDay env JNaN t) = t ++ EvGetFileForDate InvalidDate :: evs)
  /\ (forall p, getFileForDate env t InvalidDate = Resolved p ->
        In (EvLoadTextDocument p) (snd (getPageForDay env JNaN t)))
  /\ (forall p cause value,
        let t1 := t ++ [EvGetFileForDate InvalidDate; EvLoadTextDocument p] in
        getFileForDate env t InvalidDate = Resolved p ->
        loadTextDocument env (t ++ [EvGetFileForDate InvalidDate]) p = LoadFailed cause value ->
        snd (getPageForDay env JNaN t) = t1
        /\ (forall answer tpl,
              answer t1 = Resolved tpl ->
              fst (getPageForDayWith env (Normal answer) JNaN t)
              = Rejected "Journal: Not a valid value for offset"
              /\ In (EvCreateSaveLoadTextDocument value
                       (Some (jsReplace tpl "{header}" (formatDate env InvalidDate))))
                    (snd (getPageForDayWith env (Normal answer) JNaN t)))).
Proof.
  split; [|split; [|split]].
  - rewrite getPageForDay_run. cbn zeta. cbn [isNaN].
    now destruct (fst (loadOrCreateFrom env JNaN _ t)).
  - rewrite getPageForDay_run. cbn zeta.
    change (requestedDate env JNaN t) with InvalidDate.
    assert (exists evs, snd (loadOrCreateFrom env JNaN InvalidDate t)
                        = t ++ EvGetFileForDate InvalidDate :: evs) as [evs Hevs].
    { rewrite loadOrCreateFrom_run.
      destruct (getFileForDate env t InvalidDate) as [p|r|].
      - destruct (loadTextDocument env _ p) as [doc|cause value|];
          now exists [EvLoadTextDocument p].
      - now exists [].
      - now exists []. }
    destruct (fst (loadOrCreateFrom env JNaN InvalidDate t)) as [doc|r|]; cbn [snd].
    + rewrite synchronize_run, Hevs, <- app_assoc. cbn [app]. eexists; reflexivity.
    + now exists evs.
    + now exists evs.
  - intros p Hp. apply in_getPageForDay.
    change (requestedDate env JNaN t) with InvalidDate.
    rewrite loadOrCreateFrom_run, Hp.
    destruct (loadTextDocument env _ p) as [doc|cause value|]; cbn [snd];
      apply in_or_app; right; cbn; tauto.
  - intros p cause value t1 Hp Hload. split.
    + now rewrite (getPageForDay_after_failed_load env JNaN t p cause value Hp Hload).
    + intros answer tpl Htpl. split.
      * rewrite getPageForDayWith_run. cbn zeta. cbn [isNaN].
        now destruct (fst (loadOrCreateFromWith env (Normal answer) JNaN _ t)).
      * destruct (create_branch_after_failed_load env answer JNaN t p cause value Hp Hload)
          as (_ & Hbranch & _).
        exact (proj1 (Hbranch tpl Htpl)).
Qed.

Lemma getPageForDay_NaN_rejected_chain_runs_witness :
  let env := demoEnv Pending noPageFound (Resolved []) (Resolved []) in
  fst (getPageForDay env JNaN []) = Rejected "Journal: Not a valid value for offset"
  /\ In (EvLoadTextDocument "/journal/NaN/NaN/NaN.md") (snd (getPageForDay env JNaN []))
  /\ snd (getPageForDay env JNaN [])
     = [EvGetFileForDate InvalidDate; EvLoadTextDocument "/journal/NaN/NaN/NaN.md"]
  /\ In (EvCreateSaveLoadTextDocument "/journal/NaN/NaN/NaN.md" (Some "# Invalid Date"))
        (snd (getPageForDayWith env (Normal demoPageTemplate) JNaN [])).
Proof.
  intros env.
  destruct (getPageForDay_NaN_rejected_chain_runs env []) as (Hrej & _ & Hload & Hcreate).
  split; [exact Hrej|]. split; [apply Hload; reflexivity|].
  destruct (Hcreate "/journal/NaN/NaN/NaN.md" FileNotFound "/journal/NaN/NaN/NaN.md"
              eq_refl eq_refl) as [Htrace Hdesign].
  split; [exact Htrace|].
  exact (proj2 (Hdesign demoPageTemplate "# {header}" eq_refl)).
Defined.

(** C6. Once the page is loaded or created, a failure of the
    synchronization does not reach the caller: for a numeric offset
    [getPageForDay] resolves with that document, whatever the reader
    answers.  The synchronization changes no file; when the scan of the
    page or the folder listing is rejected, or the template lookup throws
    for an unreferenced file, its last call shows the failure message. *)
Theorem synchronize_failure_not_fatal
    (env : Env) (k : Z) (t t1 : Trace) (doc : TextDocument) :
  loadOrCreateFrom env (JInt k) (requestedDate env (JInt k) t) t = (Resolved doc, t1) ->
  fst (getPageForDay env (JInt k) t) = Resolved doc
  /\ snd (getPageForDay env (JInt k) t) = t1 ++ syncEvents env doc t1
  /\ existsb isMutation (syncEvents env doc t1) = false
  /\ (forall r, getReferencedFiles env t1 doc = Rejected r ->
        syncEvents env doc t1
        = [EvGetReferencedFiles doc; EvGetFilesInNotesFolder doc; syncFailureMessage r])
  /\ (forall r, (forall r', getReferencedFiles env t1 doc <> Rejected r') ->
        getFilesInNotesFolder env (t1 ++ [EvGetReferencedFiles doc]) doc = Rejected r ->
        syncEvents env doc t1
        = [EvGetReferencedFiles doc; EvGetFilesInNotesFolder doc; syncFailureMessage r])
  /\ (forall referencedFiles foundFiles,
        getReferencedFiles env t1 doc = Resolved referencedFiles ->
        getFilesInNotesFolder env (t1 ++ [EvGetReferencedFiles doc]) doc = Resolved foundFiles ->
        existsb (unreferenced referencedFiles) foundFiles = true ->
        syncEvents env doc t1
        = [EvGetReferencedFiles doc; EvGetFilesInNotesFolder doc;
           syncFailureMessage "Not yet implemented"]).
Proof.
  intros Hchain. rewrite getPageForDay_run. cbn zeta. rewrite Hchain. cbn [fst snd isNaN].
  split; [reflexivity|]. split; [apply synchronize_run|].
  split; [apply syncEvents_no_mutation|].
  unfold syncEvents. split; [|split].
  - intros r ->. reflexivity.
  - intros r Hrefs ->.
    destruct (getReferencedFiles env t1 doc) as [refs|r'|]; try reflexivity.
    now destruct (Hrefs r').
  - intros refs found -> -> ->. reflexivity.
Qed.

Lemma synchronize_failure_not_fatal_witness :
  let env := demoEnv Pending everyPageLoads (Rejected "EACCES") (Resolved ["a.md"]) in
  let doc := mkDoc "/journal/day19367.md" "# loaded" in
  getPageForDay env (JInt 0) []
  = (Resolved doc,
     [EvGetFileForDate (LocalDay 19367); EvLoadTextDocument "/journal/day19367.md";
      EvGetReferencedFiles doc; EvGetFilesInNotesFolder doc; syncFailureMessage "EACCES"]).
Proof.
  intros env doc.
  destruct (synchronize_failure_not_fatal env 0 []
              [EvGetFileForDate (LocalDay 19367); EvLoadTextDocument "/journal/day19367.md"]
              doc eq_refl) as (Hres & Htrace & _ & Hscan & _).
  rewrite (surjective_pairing (getPageForDay env (JInt 0) [])), Hres, Htrace.
  rewrite (Hscan "EACCES" eq_refl). reflexivity.
Defined.

(** *** Cancelling a prompt *)

Lemma gatherSelection_run (env : Env) (t : Trace) :
  gatherSelection env t =
  (match getPreviousJournalFiles env t with
   | Resolved files =>
       Resolved (map (fun file => mkPickDayItem file "This is a generic desc") files)
   | _ => Pending
   end,
   t ++ [EvGetPreviousJournalFiles; EvGetPreviousJournalFiles]).
Proof.
  unfold gatherSelection. unchain.
  answer; rewrite <- app_assoc; reflexivity.
Qed.

(** [createNote] in the code as it is throws before it has a promise:
    [Configuration] has no [getNotesPagesTemplate]. *)
Lemma createNote_throws (env : Env) :
  createNote env = Throw (TypeError_not_a_function "this.config.getNotesPagesTemplate").
Proof. reflexivity. Qed.

(** C7. The user cancels every prompt.  Then [openDayByInput] and
    [openDayByInputOrSelection] end after the prompt: nothing is created
    or written, no error message is shown, and the returned promise is
    left pending, so it is not rejected.  [createNote] does not get as far
    as its prompt: the call [this.config.getNotesPagesTemplate()] at the
    head of its chain throws, so it makes no call to a collaborator and
    returns no promise.  Its chain as it is written, once that call
    returns a promise that resolves with the template, asks for the name
    next; after the cancel it calls nothing more and leaves its promise
    pending. *)
Theorem cancel_stops_pipelines (env : Env) (t : Trace) :
  (forall t' prompt, getUserInput env t' prompt = Rejected "cancel") ->
  (forall t' prompt items, getUserInputComboSync env t' prompt items = Rejected "cancel") ->
  openDayByInput env t = (Pending, t ++ [EvGetUserInput "Enter day or memo (with flags) "])
  /\ (exists evs, openDayByInputOrSelection env t = (Pending, t ++ evs)
                  /\ quiet evs = true)
  /\ createNote env = Throw (TypeError_not_a_function "this.config.getNotesPagesTemplate")
  /\ (forall pageTemplate answer tpl, answer t = Resolved tpl ->
        createNoteFrom env pageTemplate answer t
        = (Pending, t ++ [EvGetNotesPagesTemplate; EvGetUserInput "Enter name for your notes"])).
Proof.
  intros Hinput Hcombo. split; [|split; [|split]].
  - unfold openDayByInput. unchain. rewrite Hinput. reflexivity.
  - unfold openDayByInputOrSelection, promise, catch_, then_, call.
    rewrite await_run, gatherSelection_run. cbn [fst snd deferred locals trace].
    destruct (getPreviousJournalFiles env t) as [files|r|];
      cbn [fst snd deferred locals trace].
    + rewrite Hcombo. cbn. rewrite <- app_assoc. eexists. split; reflexivity.
    + eexists. split; reflexivity.
    + eexists. split; reflexivity.
  - reflexivity.
  - intros pageTemplate answer tpl Htpl. unfold createNoteFrom. unchain. rewrite Htpl.
    cbn [fst snd deferred locals trace]. rewrite Hinput.
    cbn. now rewrite <- app_assoc.
Qed.

Lemma cancel_stops_pipelines_witness :
  let env := demoEnv (Rejected "cancel") noPageFound (Resolved []) (Resolved ["a.md"]) in
  openDayByInput env [] = (Pending, [EvGetUserInput "Enter day or memo (with flags) "])
  /\ createNoteFrom env getPageTemplateCall demoNotesPagesTemplate []
     = (Pending, [EvGetNotesPagesTemplate; EvGetUserInput "Enter name for your notes"])
  /\ fst (openDayByInputOrSelection env []) = Pending.
Proof.
  intros env.
  destruct (cancel_stops_pipelines env [] (fun _ _ => eq_refl) (fun _ _ _ => eq_refl))
    as (Hday & [evs [Hsel _]] & _ & Hnote).
  split; [exact Hday|]. split.
  - exact (Hnote getPageTemplateCall demoNotesPagesTemplate "# {content}" eq_refl).
  - now rewrite Hsel.
Defined.

(** *** The pipeline behind "open day by input" *)

(** [openDayByInput], answer by answer. *)
Lemma openDayByInput_run (env : Env) (t : Trace) :
  openDayByInput env t =
  let t1 := t ++ [EvGetUserInput "Enter day or memo (with flags) "] in
  match getUserInput env t "Enter day or memo (with flags) " with
  | Resolved value =>
      let t2 := t1 ++ [EvTokenize value] in
      match tokenize env t1 value with
      | Resolved input =>
          let page := getPageForDay env (offset input) t2 in
          match fst page with
          | Resolved doc =>
              let written := addMemo env input doc (snd page) in
              match fst written with
              | Resolved doc' =>
                  let t3 := snd written ++ [EvShowDocument doc'] in
                  match showDocument env (snd written) doc' with
                  | Resolved editor => (Resolved editor, t3)
                  | Rejected r => openPageFailure r t3
                  | Pending => (Pending, t3)
                  end
              | Rejected r => openPageFailure r (snd written)
              | Pending => (Pending, snd written)
              end
          | Rejected r => openPageFailure r (snd page)
          | Pending => (Pending, snd page)
          end
      | Rejected r => openPageFailure r t2
      | Pending => (Pending, t2)
      end
  | Rejected r => openPageFailure r t1
  | Pending => (Pending, t1)
  end.
Proof.
  unfold openDayByInput, openPageFailure, promise, catch_, then_, call, setLocal, getLocal.
  cbn [fst snd deferred locals trace].
  destruct (getUserInput env t _) as [value|r|]; cbn [fst snd deferred locals trace].
  - destruct (tokenize env _ value) as [input|r|]; cbn [fst snd deferred locals trace].
    + rewrite await_run. cbn [fst snd deferred locals trace].
      destruct (fst (getPageForDay env (offset input) _)) as [doc|r|];
        cbn [fst snd deferred locals trace].
      * rewrite await_run. cbn [fst snd deferred locals trace].
        destruct (fst (addMemo env input doc _)) as [doc'|r|];
          cbn [fst snd deferred locals trace].
        -- destruct (showDocument env _ doc') as [editor|r|];
             cbn [fst snd deferred locals trace]; try reflexivity.
           destruct (r =? "cancel"); reflexivity.
        -- destruct (r =? "cancel"); reflexivity.
        -- reflexivity.
      * destruct (r =? "cancel"); reflexivity.
      * reflexivity.
    + destruct (r =? "cancel"); reflexivity.
    + reflexivity.
  - destruct (r =? "cancel"); reflexivity.
  - reflexivity.
Qed.

Lemma openPageFailure_rejected (r : string) (t : Trace) (msg : string) :
  fst (openPageFailure r t) = Rejected msg ->
  r <> "cancel"
  /\ msg = ("Failed to open page. Reason: " ++ dquote ++ r ++ dquote)%string
  /\ snd (openPageFailure r t) = t ++ [EvShowErrorMessage msg].
Proof.
  unfold openPageFailure. destruct (r =? "cancel") eqn:E; cbn [fst snd]; intros H.
  - discriminate.
  - injection H as <-. apply String.eqb_neq in E. now repeat split.
Qed.

(** The user's text is not understood: the reason is shown and returned,
    and the pipeline ends before a page path is asked for. *)
Theorem openDayByInput_unrecognized_input
    (env : Env) (t : Trace) (value r : string) :
  let prompt := "Enter day or memo (with flags) " in
  let msg := ("Failed to open page. Reason: " ++ dquote ++ r ++ dquote)%string in
  getUserInput env t prompt = Resolved value ->
  tokenize env (t ++ [EvGetUserInput prompt]) value = Rejected r ->
  r <> "cancel" ->
  openDayByInput env t
  = (Rejected msg,
     t ++ [EvGetUserInput prompt; EvTokenize value; EvShowErrorMessage msg]).
Proof.
  intros prompt msg Hvalue Htoken Hr. rewrite openDayByInput_run. cbn zeta.
  fold prompt. rewrite Hvalue, Htoken. unfold openPageFailure.
  apply String.eqb_neq in Hr. rewrite Hr. fold msg. now rewrite <- !app_assoc.
Qed.

Lemma openDayByInput_unrecognized_input_witness :
  let env := demoEnv (Resolved "banana") everyPageLoads (Resolved []) (Resolved []) in
  let msg := ("Failed to open page. Reason: " ++ dquote ++ "banana" ++ dquote)%string in
  openDayByInput env []
  = (Rejected msg,
     [EvGetUserInput "Enter day or memo (with flags) "; EvTokenize "banana";
      EvShowErrorMessage msg]).
Proof.
  intros env msg.
  apply (openDayByInput_unrecognized_input env [] "banana" "banana" eq_refl eq_refl).
  discriminate.
Defined.

(** Whenever the promise of [openDayByInput] is rejected, it is rejected
    with the text of an error message that was shown to the user during
    the run; a reason "cancel" never ends in a rejection.  Nothing is said
    on where in the run the message comes. *)
Theorem openDayByInput_rejected_iff_shown (env : Env) (t : Trace) (msg : string) :
  fst (openDayByInput env t) = Rejected msg ->
  (exists r,
     r <> "cancel"
     /\ msg = ("Failed to open page. Reason: " ++ dquote ++ r ++ dquote)%string)
  /\ In (EvShowErrorMessage msg) (snd (openDayByInput env t)).
Proof.
  rewrite openDayByInput_run. cbn zeta.
  repeat match goal with
         | |- context [match ?o with Resolved _ => _ | Rejected _ => _ | Pending => _ end] =>
             destruct o
         end;
    cbn [fst snd]; try discriminate;
    intros H; apply openPageFailure_rejected in H as (Hr & Hmsg & Htrace);
    (split; [eexists; split; eassumption|]);
    rewrite Htrace; apply in_or_app; right; now left.
Qed.

Lemma openDayByInput_rejected_iff_shown_witness :
  let env := demoEnv (Resolved "banana") everyPageLoads (Resolved []) (Resolved []) in
  In (EvShowErrorMessage ("Failed to open page. Reason: " ++ dquote ++ "banana" ++ dquote)%string)
     (snd (openDayByInput env [])).
Proof.
  intros env.
  exact (proj2 (openDayByInput_rejected_iff_shown env []
                  ("Failed to open page. Reason: " ++ dquote ++ "banana" ++ dquote)%string
                  eq_refl)).
Defined.

(** *** What [getPageForDay] calls *)

Lemma createPageOutcome_calls (env : Env) (pageTemplate : TemplateCall)
    (offset : JsNumber) (p : string) (t : Trace) :
  exists evs, snd (createPageOutcome env pageTemplate offset p t) = t ++ evs
              /\ forallb isPageCall evs = true.
Proof.
  unfold createPageOutcome. destruct pageTemplate as [answer|e].
  - rewrite createPageFrom_run. destruct (answer t); cbn [snd];
      eexists; split; reflexivity.
  - exists []. cbn [snd]. now rewrite app_nil_r.
Qed.

Lemma loadOrCreateFromWith_calls (env : Env) (pageTemplate : TemplateCall)
    (offset : JsNumber) (date : JsDate) (t : Trace) :
  exists evs, snd (loadOrCreateFromWith env pageTemplate offset date t) = t ++ evs
              /\ forallb isPageCall evs = true.
Proof.
  rewrite loadOrCreateFromWith_run.
  destruct (getFileForDate env t date) as [p|r|].
  - destruct (loadTextDocument env _ p) as [doc|cause value|];
      try (eexists; split; reflexivity).
    destruct (createPageOutcome_calls env pageTemplate offset value
                (t ++ [EvGetFileForDate date; EvLoadTextDocument p])) as (evs & -> & Hevs).
    exists ([EvGetFileForDate date; EvLoadTextDocument p] ++ evs).
    rewrite <- app_assoc. split; [reflexivity|]. exact Hevs.
  - destruct (createPageOutcome_calls env pageTemplate offset r (t ++ [EvGetFileForDate date]))
      as (evs & -> & Hevs).
    exists ([EvGetFileForDate date] ++ evs).
    rewrite <- app_assoc. split; [reflexivity|]. exact Hevs.
  - eexists; split; reflexivity.
Qed.

Lemma syncEvents_calls (env : Env) (doc : TextDocument) (t : Trace) :
  forallb isPageCall (syncEvents env doc t) = true.
Proof.
  unfold syncEvents.
  destruct (getReferencedFiles env t doc);
    destruct (getFilesInNotesFolder env (t ++ [EvGetReferencedFiles doc]) doc);
    try reflexivity.
  destruct (existsb (unreferenced _) _); reflexivity.
Qed.

(** The inventory of the calls of [getPageForDay], shared by the statements
    on the pipelines. *)
Lemma page_calls_only_with (env : Env) (pageTemplate : TemplateCall) (offset : JsNumber)
    (t : Trace) :
  exists evs,
    snd (getPageForDayWith env pageTemplate offset t) = t ++ evs
    /\ forallb isPageCall evs = true
    /\ existsb isMemoWrite evs = false
    /\ existsb isInsertContent evs = false
    /\ existsb isShowDocument evs = false.
Proof.
  assert (forall evs, forallb isPageCall evs = true ->
            existsb isMemoWrite evs = false
            /\ existsb isInsertContent evs = false
            /\ existsb isShowDocument evs = false) as Hnever.
  { induction evs as [|e evs IH]; cbn; [auto|].
    intros H. apply andb_true_iff in H as [He Hevs].
    destruct (IH Hevs) as (H1 & H2 & H3). rewrite H1, H2, H3.
    destruct e; cbn in *; try discriminate; auto. }
  assert (exists evs, snd (getPageForDayWith env pageTemplate offset t) = t ++ evs
                      /\ forallb isPageCall evs = true) as (evs & Htrace & Hevs).
  { rewrite getPageForDayWith_run. cbn zeta.
    destruct (loadOrCreateFromWith_calls env pageTemplate offset
                (requestedDate env offset t) t) as (evs & Htrace & Hevs).
    destruct (fst (loadOrCreateFromWith env pageTemplate offset _ t)) as [doc|r|]; cbn [snd].
    - rewrite synchronize_run, Htrace, <- app_assoc. eexists. split; [reflexivity|].
      rewrite forallb_app, Hevs. apply syncEvents_calls.
    - now exists evs.
    - now exists evs. }
  exists evs. split; [exact Htrace|]. split; [exact Hevs|]. now apply Hnever.
Qed.

Lemma page_calls_only (env : Env) (offset : JsNumber) (t : Trace) :
  exists evs,
    snd (getPageForDay env offset t) = t ++ evs
    /\ forallb isPageCall evs = true
    /\ existsb isMemoWrite evs = false
    /\ existsb isInsertContent evs = false
    /\ existsb isShowDocument evs = false.
Proof.
  exact (page_calls_only_with env getPageTemplateCall offset t).
Qed.

(** [getPageForDay] only adds to the trace, and all it calls is the path
    resolver, the loader, the page template, the creation of the page, the
    two listings of the synchronization and the error message of the
    synchronization: it never prompts, never writes a memo, never inserts a
    link and never shows a document. *)
Theorem getPageForDay_calls (env : Env) (offset : JsNumber) (t : Trace) :
  exists evs,
    snd (getPageForDay env offset t) = t ++ evs
    /\ forallb isPageCall evs = true
    /\ existsb isMemoWrite evs = false
    /\ existsb isInsertContent evs = false
    /\ existsb isShowDocument evs = false.
Proof.
  exact (page_calls_only env offset t).
Qed.

Lemma NaN_guard_rejects_chain_starts (env : Env) (t : Trace) :
  fst (getPageForDay env JNaN t) = Rejected "Journal: Not a valid value for offset"
  /\ exists evs, snd (getPageForDay env JNaN t) = t ++ EvGetFileForDate InvalidDate :: evs.
Proof.
  split.
  - rewrite getPageForDay_run. cbn zeta. cbn [isNaN].
    now destruct (fst (loadOrCreateFrom env JNaN _ t)).
  - rewrite getPageForDay_run. cbn zeta.
    change (requestedDate env JNaN t) with InvalidDate.
    assert (exists evs, snd (loadOrCreateFrom env JNaN InvalidDate t)
                        = t ++ EvGetFileForDate InvalidDate :: evs) as [evs Hevs].
    { rewrite loadOrCreateFrom_run.
      destruct (getFileForDate env t InvalidDate) as [p|r|].
      - destruct (loadTextDocument env _ p) as [doc|cause value|];
          now exists [EvLoadTextDocument p].
      - now exists [].
      - now exists []. }
    destruct (fst (loadOrCreateFrom env JNaN InvalidDate t)) as [doc|r|]; cbn [snd].
    + rewrite synchronize_run, Hevs, <- app_assoc. cbn [app]. eexists; reflexivity.
    + now exists evs.
    + now exists evs.
Qed.

(** A tokenized offset that is not a number: the page chain runs, the memo
    is not written, no document is shown, and the user sees the message of
    the guard of [getPageForDay]. *)
Theorem openDayByInput_NaN_offset (env : Env) (t : Trace) (value : string) (input : Input) :
  let prompt := "Enter day or memo (with flags) " in
  let msg := ("Failed to open page. Reason: " ++ dquote
                ++ "Journal: Not a valid value for offset" ++ dquote)%string in
  getUserInput env t prompt = Resolved value ->
  tokenize env (t ++ [EvGetUserInput prompt]) value = Resolved input ->
  offset input = JNaN ->
  fst (openDayByInput env t) = Rejected msg
  /\ In (EvGetFileForDate InvalidDate) (snd (openDayByInput env t))
  /\ exists evs, snd (openDayByInput env t) = t ++ evs
                 /\ existsb isMemoWrite evs = false
                 /\ existsb isShowDocument evs = false.
Proof.
  intros prompt msg Hvalue Htoken Hnan. rewrite openDayByInput_run. cbn zeta.
  fold prompt. rewrite Hvalue, Htoken, Hnan.
  destruct (NaN_guard_rejects_chain_starts env
              (t ++ [EvGetUserInput prompt] ++ [EvTokenize value])) as (Hrej & evs0 & Htrace).
  rewrite app_assoc in Hrej, Htrace. rewrite Hrej. unfold openPageFailure. cbn [String.eqb].
  change ("Journal: Not a valid value for offset" =? "cancel") with false.
  cbn [fst snd]. fold msg. split; [reflexivity|]. split.
  - apply in_or_app. left. rewrite Htrace. apply in_or_app. right. now left.
  - destruct (page_calls_only env JNaN ((t ++ [EvGetUserInput prompt]) ++ [EvTokenize value]))
      as (evs & Hevs & _ & Hw & _ & Hs).
    rewrite Hevs. exists ([EvGetUserInput prompt; EvTokenize value] ++ evs ++ [EvShowErrorMessage msg]).
    split; [now rewrite <- !app_assoc|].
    cbn [app existsb isMemoWrite isShowDocument orb].
    rewrite !existsb_app, Hw, Hs. split; reflexivity.
Qed.

Lemma openDayByInput_NaN_offset_witness :
  let env := withTokenizer (demoEnv (Resolved "soon") noPageFound (Resolved []) (Resolved []))
               (Resolved (mkInput "soon" JNaN (Some "call") ["task"])) in
  fst (openDayByInput env [])
  = Rejected ("Failed to open page. Reason: " ++ dquote
                ++ "Journal: Not a valid value for offset" ++ dquote)%string
  /\ In (EvGetFileForDate InvalidDate) (snd (openDayByInput env [])).
Proof.
  intros env.
  destruct (openDayByInput_NaN_offset env [] "soon" (mkInput "soon" JNaN (Some "call") ["task"])
              eq_refl eq_refl eq_refl) as (Hrej & Hin & _).
  split; [exact Hrej | exact Hin].
Defined.

(** The writer fails on a memo with a flag: the reason given by the writer
    is lost, the user is told "Failed to add memo", and the page is not
    shown. *)
Theorem openDayByInput_writer_failure
    (env : Env) (t t' : Trace) (value r : string) (input : Input) (doc : TextDocument) :
  let prompt := "Enter day or memo (with flags) " in
  let msg := ("Failed to open page. Reason: " ++ dquote ++ "Failed to add memo" ++ dquote)%string in
  getUserInput env t prompt = Resolved value ->
  tokenize env (t ++ [EvGetUserInput prompt]) value = Resolved input ->
  hasMemo input && hasFlags input = true ->
  getPageForDay env (offset input) (t ++ [EvGetUserInput prompt; EvTokenize value])
  = (Resolved doc, t') ->
  writeInputToFile env t' doc (mkPosition 2 0) input = Rejected r ->
  openDayByInput env t
  = (Rejected msg,
     t' ++ [EvWriteInputToFile doc (mkPosition 2 0) input; EvShowErrorMessage msg]).
Proof.
  intros prompt msg Hvalue Htoken Hboth Hpage Hwrite. rewrite openDayByInput_run. cbn zeta.
  fold prompt. rewrite Hvalue, Htoken. rewrite <- app_assoc. cbn [app].
  rewrite Hpage. cbn [fst snd]. rewrite addMemo_run, Hboth, Hwrite. cbn [fst snd].
  unfold openPageFailure. change ("Failed to add memo" =? "cancel") with false.
  fold msg. now rewrite <- app_assoc.
Qed.

Lemma openDayByInput_writer_failure_witness :
  let env := withWriter (demoEnv (Resolved "+1 call #task") everyPageLoads
                           (Resolved []) (Resolved []))
               (Rejected "EROFS") in
  fst (openDayByInput env [])
  = Rejected ("Failed to open page. Reason: " ++ dquote ++ "Failed to add memo" ++ dquote)%string.
Proof.
  intros env.
  pose (doc := mkDoc "/journal/day19368.md" "# loaded").
  rewrite (openDayByInput_writer_failure env []
             [EvGetUserInput "Enter day or memo (with flags) "; EvTokenize "+1 call #task";
              EvGetFileForDate (LocalDay 19368); EvLoadTextDocument "/journal/day19368.md";
              EvGetReferencedFiles doc; EvGetFilesInNotesFolder doc]
             "+1 call #task" "EROFS" (mkInput "+1 call #task" (JInt 1) (Some "call") ["task"])
             doc eq_refl eq_refl eq_refl eq_refl eq_refl).
  reflexivity.
Defined.

(** *** The pipeline behind the pick list *)

Lemma openDayByInputOrSelection_run (env : Env) (t : Trace) :
  openDayByInputOrSelection env t =
  let prompt := "Enter day or memo (with flags)" in
  let t0 := t ++ [EvGetPreviousJournalFiles; EvGetPreviousJournalFiles] in
  match getPreviousJournalFiles env t with
  | Resolved files =>
      let items := map (fun file => mkPickDayItem file "This is a generic desc") files in
      let t1 := t0 ++ [EvGetUserInputComboSync prompt items] in
      match getUserInputComboSync env t0 prompt items with
      | Resolved value =>
          let t2 := t1 ++ [EvTokenize value] in
          match tokenize env t1 value with
          | Resolved input =>
              let page := getPageForDay env (offset input) t2 in
              match fst page with
              | Resolved doc => (Resolved doc, snd page)
              | Rejected r => selectionFailure r (snd page)
              | Pending => (Pending, snd page)
              end
          | Rejected r => selectionFailure r t2
          | Pending => (Pending, t2)
          end
      | Rejected r => selectionFailure r t1
      | Pending => (Pending, t1)
      end
  | _ => (Pending, t0)
  end.
Proof.
  unfold openDayByInputOrSelection, selectionFailure, promise, catch_, then_, call.
  rewrite await_run, gatherSelection_run. cbn [fst snd deferred locals trace].
  destruct (getPreviousJournalFiles env t) as [files|r|];
    cbn [fst snd deferred locals trace]; try reflexivity.
  destruct (getUserInputComboSync env _ _ _) as [value|r|];
    cbn [fst snd deferred locals trace].
  - destruct (tokenize env _ value) as [input|r|]; cbn [fst snd deferred locals trace].
    + rewrite await_run. cbn [fst snd deferred locals trace].
      destruct (fst (getPageForDay env (offset input) _)) as [doc|r|];
        cbn [fst snd deferred locals trace]; try reflexivity.
      destruct (r =? "cancel"); reflexivity.
    + destruct (r =? "cancel"); reflexivity.
    + reflexivity.
  - destruct (r =? "cancel"); reflexivity.
  - reflexivity.
Qed.

Lemma selectionFailure_calls (r : string) (t : Trace) :
  exists evs, snd (selectionFailure r t) = t ++ evs
              /\ existsb isMemoWrite evs = false /\ existsb isShowDocument evs = false.
Proof.
  unfold selectionFailure. destruct (r =? "cancel"); cbn [snd].
  - exists []. now rewrite app_nil_r.
  - eexists. repeat split.
Qed.

(** The pick-list pipeline stops at the page: whatever memo and flags the
    text carries, no memo is written and no document is shown. *)
Theorem openDayByInputOrSelection_drops_memo (env : Env) (t : Trace) :
  exists evs,
    snd (openDayByInputOrSelection env t) = t ++ evs
    /\ existsb isMemoWrite evs = false
    /\ existsb isShowDocument evs = false.
Proof.
  rewrite openDayByInputOrSelection_run. cbn zeta.
  set (t0 := t ++ [EvGetPreviousJournalFiles; EvGetPreviousJournalFiles]).
  assert (forall t' pre r,
            t' = t ++ pre -> existsb isMemoWrite pre = false ->
            existsb isShowDocument pre = false ->
            exists evs, snd (selectionFailure r t') = t ++ evs
                        /\ existsb isMemoWrite evs = false
                        /\ existsb isShowDocument evs = false) as Hfail.
  { intros t' pre r -> Hw Hs.
    destruct (selectionFailure_calls r (t ++ pre)) as (evs & -> & Hw' & Hs').
    exists (pre ++ evs). rewrite <- app_assoc, !existsb_app, Hw, Hs, Hw', Hs'. now repeat split. }
  destruct (getPreviousJournalFiles env t) as [files|r|];
    try (exists [EvGetPreviousJournalFiles; EvGetPreviousJournalFiles]; now repeat split).
  set (items := map _ files).
  set (prompt := "Enter day or memo (with flags)").
  destruct (getUserInputComboSync env t0 prompt items) as [value|r|].
  - destruct (tokenize env _ value) as [input|r|].
    + set (t2 := (t0 ++ [EvGetUserInputComboSync prompt items]) ++ [EvTokenize value]).
      destruct (page_calls_only env (offset input) t2) as (evs & Htrace & _ & Hw & _ & Hs).
      set (pre := [EvGetPreviousJournalFiles; EvGetPreviousJournalFiles;
                   EvGetUserInputComboSync prompt items; EvTokenize value] ++ evs).
      assert (snd (getPageForDay env (offset input) t2) = t ++ pre) as Hpre.
      { rewrite Htrace. unfold t2, t0, pre. now rewrite <- !app_assoc. }
      assert (existsb isMemoWrite pre = false /\ existsb isShowDocument pre = false)
        as [Hw' Hs'].
      { unfold pre. rewrite !existsb_app, Hw, Hs. now split. }
      destruct (fst (getPageForDay env (offset input) t2)) as [doc|r|]; cbn [snd].
      * exists pre. now repeat split.
      * now apply (Hfail _ pre).
      * exists pre. now repeat split.
    + apply (Hfail _ [EvGetPreviousJournalFiles; EvGetPreviousJournalFiles;
                      EvGetUserInputComboSync prompt items; EvTokenize value]);
        [unfold t0; now rewrite <- !app_assoc | reflexivity | reflexivity].
    + eexists. unfold t0. rewrite <- !app_assoc. cbn [snd]. split; [reflexivity|].
      now split.
  - apply (Hfail _ [EvGetPreviousJournalFiles; EvGetPreviousJournalFiles;
                    EvGetUserInputComboSync prompt items]);
      [unfold t0; now rewrite <- !app_assoc | reflexivity | reflexivity].
  - eexists. unfold t0. rewrite <- !app_assoc. cbn [snd]. split; [reflexivity|]. now split.
Qed.

(** The listing of previous journal files does not resolve: the selection
    promise has no rejection path, so the user is never prompted and the
    promise of the pipeline is never settled. *)
Theorem openDayByInputOrSelection_hangs_without_listing (env : Env) (t : Trace) :
  (forall files, getPreviousJournalFiles env t <> Resolved files) ->
  fst (gatherSelection env t) = Pending
  /\ openDayByInputOrSelection env t
     = (Pending, t ++ [EvGetPreviousJournalFiles; EvGetPreviousJournalFiles]).
Proof.
  intros Hnone. rewrite gatherSelection_run, openDayByInputOrSelection_run. cbn zeta.
  destruct (getPreviousJournalFiles env t) as [files|r|]; cbn [fst]; try now split.
  now destruct (Hnone files).
Qed.

Lemma openDayByInputOrSelection_hangs_without_listing_witness :
  let env := withPreviousJournalFiles
               (demoEnv (Resolved "+1") everyPageLoads (Resolved []) (Resolved []))
               (Rejected "ENOENT") in
  openDayByInputOrSelection env []
  = (Pending, [EvGetPreviousJournalFiles; EvGetPreviousJournalFiles]).
Proof.
  intros env.
  apply (openDayByInputOrSelection_hangs_without_listing env []).
  intros files H. discriminate H.
Defined.

(** *** Opening a day by its offset *)

Lemma openDay_run (env : Env) (offset : JsNumber) (t : Trace) :
  openDay env offset t =
  let page := getPageForDay env offset t in
  match fst page with
  | Resolved doc =>
      let t' := snd page ++ [EvShowDocument doc] in
      match showDocument env (snd page) doc with
      | Resolved editor => (Resolved editor, t')
      | Rejected r => openDayFailure r t'
      | Pending => (Pending, t')
      end
  | Rejected r => openDayFailure r (snd page)
  | Pending => (Pending, snd page)
  end.
Proof.
  unfold openDay, openDayFailure, promise, catch_, then_, call, emit, reject_, resolve_, settle.
  rewrite await_run. cbn [fst snd deferred locals trace].
  destruct (fst (getPageForDay env offset t)) as [doc|r|];
    cbn [fst snd deferred locals trace]; try reflexivity.
  destruct (showDocument env _ doc); reflexivity.
Qed.

(** [openDay] hands every failure of the page to the user: the promise is
    rejected with "Failed to open today's page. Reason: " followed by the
    reason, that text is the last thing shown, and no document is shown.
    A reason "cancel" is no exception here. *)
Theorem openDay_reports_failure (env : Env) (offset : JsNumber) (t : Trace) (r : string) :
  fst (getPageForDay env offset t) = Rejected r ->
  let msg := ("Failed to open today's page. Reason: " ++ r)%string in
  openDay env offset t
  = (Rejected msg, snd (getPageForDay env offset t) ++ [EvShowErrorMessage msg])
  /\ exists evs, snd (openDay env offset t) = t ++ evs /\ existsb isShowDocument evs = false.
Proof.
  intros Hrej msg. rewrite openDay_run. cbn zeta. rewrite Hrej. unfold openDayFailure.
  fold msg. split; [reflexivity|]. cbn [snd].
  destruct (page_calls_only env offset t) as (evs & -> & _ & _ & _ & Hs).
  exists (evs ++ [EvShowErrorMessage msg]). rewrite <- app_assoc. split; [reflexivity|].
  now rewrite existsb_app, Hs.
Qed.

Lemma openDay_reports_failure_witness :
  let env := demoEnv Pending everyPageLoads (Resolved []) (Resolved []) in
  fst (openDay env JNaN [])
  = Rejected "Failed to open today's page. Reason: Journal: Not a valid value for offset".
Proof.
  intros env.
  destruct (openDay_reports_failure env JNaN [] "Journal: Not a valid value for offset" eq_refl)
    as [H _].
  now rewrite H.
Defined.

(** *** More on the page of a day *)

(** The page is there: it is loaded and returned; the page template is not
    read and nothing is created or written. *)
Theorem getPageForDay_existing_page
    (env : Env) (offset : JsNumber) (t : Trace) (p : string) (doc : TextDocument) :
  let date := requestedDate env offset t in
  let t1 := t ++ [EvGetFileForDate date; EvLoadTextDocument p] in
  isNaN offset = false ->
  getFileForDate env t date = Resolved p ->
  loadTextDocument env (t ++ [EvGetFileForDate date]) p = Loaded doc ->
  getPageForDay env offset t = (Resolved doc, t1 ++ syncEvents env doc t1)
  /\ ~ In EvGetPageTemplate ([EvGetFileForDate date; EvLoadTextDocument p] ++ syncEvents env doc t1)
  /\ existsb isMutation ([EvGetFileForDate date; EvLoadTextDocument p] ++ syncEvents env doc t1)
     = false.
Proof.
  intros date t1 Hnum Hp Hload. split; [|split].
  - rewrite getPageForDay_run. cbn zeta. fold date.
    rewrite loadOrCreateFrom_run, Hp, Hload, Hnum. cbn [fst snd]. fold t1.
    now rewrite synchronize_run.
  - intros Hin. apply in_app_or in Hin as [Hin|Hin].
    + cbn in Hin. destruct Hin as [H|[H|[]]]; discriminate H.
    + pose proof (syncEvents_calls env doc t1) as Hcalls.
      unfold syncEvents in Hin.
      destruct (getReferencedFiles env t1 doc);
        destruct (getFilesInNotesFolder env (t1 ++ [EvGetReferencedFiles doc]) doc);
        try destruct (existsb (unreferenced _) _);
        cbn in Hin; repeat (destruct Hin as [Hin|Hin]; [discriminate Hin|]); exact Hin.
  - rewrite existsb_app, syncEvents_no_mutation. reflexivity.
Qed.

Lemma getPageForDay_existing_page_witness :
  let env := demoEnv Pending everyPageLoads (Resolved ["a.md"]) (Resolved ["a.md"]) in
  let doc := mkDoc "/journal/day19366.md" "# loaded" in
  getPageForDay env (JInt (-1)) []
  = (Resolved doc,
     [EvGetFileForDate (LocalDay 19366); EvLoadTextDocument "/journal/day19366.md";
      EvGetReferencedFiles doc; EvGetFilesInNotesFolder doc]).
Proof.
  intros env doc.
  destruct (getPageForDay_existing_page env (JInt (-1)) [] "/journal/day19366.md" doc
              eq_refl eq_refl eq_refl) as [H _].
  rewrite H. reflexivity.
Defined.

(** The handler of a failed load as it is written, for a call
    [this.config.getPageTemplate()] that returns a promise: when that
    promise does not resolve, or the creation does not succeed, the inner
    promise has no way to fail, so for a numeric offset the promise of
    [getPageForDay] is never settled; the synchronization is not started
    and no message is shown. *)
Theorem getPageForDay_hangs_when_creation_fails
    (env : Env) (answer : Trace -> Outcome string) (k : Z) (t : Trace) (p : string)
    (cause : IOCause) (value : string) :
  let date := requestedDate env (JInt k) t in
  let t1 := t ++ [EvGetFileForDate date; EvLoadTextDocument p] in
  getFileForDate env t date = Resolved p ->
  loadTextDocument env (t ++ [EvGetFileForDate date]) p = LoadFailed cause value ->
  ((forall tpl, answer t1 <> Resolved tpl) ->
     getPageForDayWith env (Normal answer) (JInt k) t = (Pending, t1 ++ [EvGetPageTemplate]))
  /\ (forall tpl,
        let content := jsReplace tpl "{header}" (formatDate env (requestedDate env (JInt k) t1)) in
        answer t1 = Resolved tpl ->
        (forall doc, createSaveLoadTextDocument env (t1 ++ [EvGetPageTemplate]) value (Some content)
                     <> Resolved doc) ->
        getPageForDayWith env (Normal answer) (JInt k) t
        = (Pending,
           t1 ++ [EvGetPageTemplate; EvCreateSaveLoadTextDocument value (Some content)])).
Proof.
  intros date t1 Hp Hload.
  pose proof (loadOrCreateFromWith_load_failed env answer (JInt k) date t p cause value
                Hp Hload) as Hchain.
  fold t1 in Hchain. rewrite createPageFrom_run in Hchain. split.
  - intros Hnone. rewrite getPageForDayWith_run. cbn zeta. fold date. rewrite Hchain.
    destruct (answer t1) as [tpl|r|]; try reflexivity.
    now destruct (Hnone tpl).
  - intros tpl content Htpl Hnone. rewrite getPageForDayWith_run. cbn zeta. fold date.
    rewrite Hchain, Htpl. fold content. cbn [fst snd].
    destruct (createSaveLoadTextDocument env _ value (Some content)) as [doc|r|];
      try reflexivity.
    now destruct (Hnone doc).
Qed.

Lemma getPageForDay_hangs_when_creation_fails_witness :
  let env := demoEnv Pending noPageFound (Resolved []) (Resolved []) in
  getPageForDayWith env (Normal (fun _ => Rejected "ENOENT")) (JInt 0) []
  = (Pending,
     [EvGetFileForDate (LocalDay 19367); EvLoadTextDocument "/journal/day19367.md";
      EvGetPageTemplate]).
Proof.
  intros env.
  destruct (getPageForDay_hangs_when_creation_fails env (fun _ => Rejected "ENOENT") 0 []
              "/journal/day19367.md" FileNotFound "/journal/day19367.md" eq_refl eq_refl)
    as [H _].
  apply H. intros tpl Htpl. discriminate Htpl.
Defined.

(** The path resolver fails: the loader is not called and the handler of
    the failure is entered with the reason in the place of the path.  In
    the code as it is the handler throws at once: nothing is created, and
    the promise is rejected with "Failed to open file" for a numeric
    offset, with the message of the guard for NaN. *)
Theorem getPageForDay_path_failure_rejected
    (env : Env) (offset : JsNumber) (t : Trace) (r : string) :
  let date := requestedDate env offset t in
  getFileForDate env t date = Rejected r ->
  getPageForDay env offset t
  = (Rejected (if isNaN offset then "Journal: Not a valid value for offset"
               else "Failed to open file"),
     t ++ [EvGetFileForDate date]).
Proof.
  exact (getPageForDay_after_failed_path env offset t r).
Qed.

Lemma getPageForDay_path_failure_rejected_witness :
  let env := withPathResolver (demoEnv Pending noPageFound (Resolved []) (Resolved []))
               (Rejected "no journal folder") in
  getPageForDay env (JInt 0) []
  = (Rejected "Failed to open file", [EvGetFileForDate (LocalDay 19367)]).
Proof.
  intros env.
  exact (getPageForDay_path_failure_rejected env (JInt 0) [] "no journal folder" eq_refl).
Defined.

(** *** Creating a note *)

(** The chain of [createNote], answer by answer. *)
Lemma createNoteFrom_run (env : Env) (pageTemplate : TemplateCall)
    (answer : Trace -> Outcome string) (t : Trace) :
  createNoteFrom env pageTemplate answer t =
  let prompt := "Enter name for your notes" in
  let t1 := t ++ [EvGetNotesPagesTemplate] in
  match answer t with
  | Resolved tplInfo =>
      let t2 := t1 ++ [EvGetUserInput prompt] in
      match getUserInput env t1 prompt with
      | Resolved input =>
          let content := Some (jsReplace tplInfo "{content}" input) in
          let t3 := t2 ++ [EvNormalizeFilename input] in
          match normalizeFilename env t2 input with
          | Resolved filename =>
              let today := LocalDay (clock env t3) in
              let t4 := t3 ++ [EvGetFilePathInDateFolder today filename] in
              match getFilePathInDateFolder env t3 today filename with
              | Resolved p =>
                  let t5 := t4 ++ [EvLoadTextDocument p] in
                  match loadTextDocument env t4 p with
                  | Loaded doc => noteShown env pageTemplate doc t5
                  | LoadFailed _ value => noteCreated env pageTemplate value content t5
                  | LoadPending => (Pending, t5)
                  end
              | Rejected r => noteCreated env pageTemplate r content t4
              | Pending => (Pending, t4)
              end
          | Rejected r => noteCreated env pageTemplate r content t3
          | Pending => (Pending, t3)
          end
      | Rejected r => noteCreated env pageTemplate r (Some tplInfo) t2
      | Pending => (Pending, t2)
      end
  | Rejected r => noteCreated env pageTemplate r None t1
  | Pending => (Pending, t1)
  end.
Proof.
  unfold createNoteFrom, noteCreated, noteShown, noteFailure. unchain.
  repeat run_step; reflexivity.
Qed.



Lemma noteShown_calls (env : Env) (pageTemplate : TemplateCall) (doc : TextDocument)
    (t : Trace) :
  exists evs, snd (noteShown env pageTemplate doc t) = t ++ evs
              /\ existsb isPrompt evs = false.
Proof.
  assert (forall evs, forallb isPageCall evs = true -> existsb isPrompt evs = false) as Hpage.
  { induction evs as [|e evs IH]; cbn; [reflexivity|].
    intros H. apply andb_true_iff in H as [He Hevs]. rewrite (IH Hevs).
    destruct e; cbn in *; try discriminate; reflexivity. }
  unfold noteShown, noteFailure. destruct (showDocument env t doc) as [editor|r|]; cbn [snd].
  - destruct (page_calls_only_with env pageTemplate (JInt 0) (t ++ [EvShowDocument doc]))
      as (evs & -> & Hevs & _).
    exists ([EvShowDocument doc] ++ evs). rewrite <- app_assoc. split; [reflexivity|].
    cbn. now apply Hpage.
  - destruct (r =? "cancel"); cbn [snd]; eexists; split; reflexivity.
  - eexists; split; reflexivity.
Qed.

(** The chain of [createNote] as it is written, for a call
    [this.config.getNotesPagesTemplate()] that returns a promise: when
    that promise is rejected, the user is not asked for a name, and
    [createSaveLoadTextDocument] is called with the reason of the failure
    as the path and with [null] as the content. *)
Theorem createNote_template_failure_creates
    (env : Env) (pageTemplate : TemplateCall) (answer : Trace -> Outcome string)
    (t : Trace) (r : string) :
  answer t = Rejected r ->
  r <> "cancel" ->
  exists evs,
    snd (createNoteFrom env pageTemplate answer t)
    = t ++ EvGetNotesPagesTemplate :: EvCreateSaveLoadTextDocument r None :: evs
    /\ existsb isPrompt evs = false.
Proof.
  intros Htpl Hr. rewrite createNoteFrom_run. cbn zeta. rewrite Htpl.
  unfold noteCreated. apply String.eqb_neq in Hr. rewrite Hr.
  set (t2 := (t ++ [EvGetNotesPagesTemplate]) ++ [EvCreateSaveLoadTextDocument r None]).
  assert (t2 = t ++ [EvGetNotesPagesTemplate; EvCreateSaveLoadTextDocument r None]) as Ht2
    by (unfold t2; now rewrite <- app_assoc).
  destruct (createSaveLoadTextDocument env _ r None) as [doc|r'|].
  - destruct (noteShown_calls env pageTemplate doc t2) as (evs & -> & Hevs).
    exists evs. rewrite Ht2, <- app_assoc. now split.
  - unfold noteFailure. destruct (r' =? "cancel"); cbn [snd]; exists [];
      rewrite Ht2; now split.
  - cbn [snd]. exists []. rewrite Ht2. now split.
Qed.

Lemma createNote_template_failure_creates_witness :
  let env := demoEnv (Resolved "shopping list") noPageFound (Resolved []) (Resolved []) in
  exists evs,
    snd (createNoteFrom env getPageTemplateCall (fun _ => Rejected "ENOENT") [])
    = EvGetNotesPagesTemplate :: EvCreateSaveLoadTextDocument "ENOENT" None :: evs.
Proof.
  intros env.
  assert ("ENOENT" <> "cancel") as Hr by discriminate.
  destruct (createNote_template_failure_creates env getPageTemplateCall
              (fun _ => Rejected "ENOENT") [] "ENOENT" eq_refl Hr) as (evs & H & _).
  exists evs. exact H.
Defined.

(** The chain of [createNote] as it is written tells its caller, not the
    user: for a call [this.config.getNotesPagesTemplate()] that returns a
    promise, when the promise of the chain is rejected, the reason is
    wrapped in "Failed to create a new note. Reason is [...]", it is not
    "cancel", and no error message was shown along the way. *)
Theorem createNote_rejects_silently
    (env : Env) (pageTemplate : TemplateCall) (answer : Trace -> Outcome string)
    (t : Trace) (msg : string) :
  fst (createNoteFrom env pageTemplate answer t) = Rejected msg ->
  exists r evs,
    r <> "cancel"
    /\ msg = ("Failed to create a new note. Reason is [" ++ r ++ "]")%string
    /\ snd (createNoteFrom env pageTemplate answer t) = t ++ evs
    /\ existsb isErrorMessage evs = false.
Proof.
  rewrite createNoteFrom_run. cbn zeta. unfold noteCreated, noteShown, noteFailure.
  repeat match goal with
         | |- context [match ?o with Resolved _ => _ | Rejected _ => _ | Pending => _ end] =>
             destruct o
         | |- context [match ?o with Loaded _ => _ | LoadFailed _ _ => _ | LoadPending => _ end] =>
             destruct o
         | |- context [?r =? "cancel"] => is_var r; destruct (r =? "cancel") eqn:?
         end;
    cbn [fst snd]; try discriminate;
    intros H; injection H as <-;
    match goal with
    | E : (?r =? "cancel") = false |- _ =>
        exists r; eexists; split; [now apply String.eqb_neq|];
        split; [reflexivity|]; rewrite <- !app_assoc; split; reflexivity
    end.
Qed.

Lemma createNote_rejects_silently_witness :
  let env := withCreation
               (demoEnv (Resolved "shopping list") noPageFound (Resolved []) (Resolved []))
               (Rejected "EACCES") in
  exists r evs,
    r <> "cancel"
    /\ snd (createNoteFrom env getPageTemplateCall demoNotesPagesTemplate []) = evs
    /\ existsb isErrorMessage evs = false.
Proof.
  intros env.
  destruct (createNote_rejects_silently env getPageTemplateCall
              demoNotesPagesTemplate []
              "Failed to create a new note. Reason is [EACCES]" eq_refl)
    as (r & evs & Hr & _ & Htrace & Hquiet).
  exists r, evs. split; [exact Hr|]. split; [exact Htrace | exact Hquiet].
Defined.

(** *** More on the synchronization *)

(** With a file-link template at hand, the loop of the synchronization
    links every file of the notes folder that the page does not reference,
    once per entry of the listing and in its order: the label is the
    denormalized file name and the link is [./<page base name>/<file>].
    The files that are referenced are left alone. *)
Theorem synchronize_links_each_unreferenced_file
    (env : Env) (doc : TextDocument)
    (tplPromise : Promise (option InlineTemplate)) (tpl : option InlineTemplate)
    (referencedFiles foundFiles : list string) (t : Trace) :
  (forall t', tplPromise t' = (Resolved tpl, t')) ->
  getReferencedFiles env t doc = Resolved referencedFiles ->
  getFilesInNotesFolder env (t ++ [EvGetReferencedFiles doc]) doc = Resolved foundFiles ->
  synchronizeWith env (Normal tplPromise) doc t
  = t ++ [EvGetReferencedFiles doc; EvGetFilesInNotesFolder doc]
      ++ map (fun file =>
                EvInsertContent doc tpl
                  ("{label}", denormalizeFilename env file)
                  ("{link}", ("./" ++ getFileInURI env (uri_path doc) ++ "/" ++ file)%string))
           (filter (unreferenced referencedFiles) foundFiles).
Proof.
  exact (synchronizeWith_links_unreferenced env doc tplPromise tpl referencedFiles
           foundFiles t).
Qed.

Lemma synchronize_links_each_unreferenced_file_witness :
  let env := demoEnv Pending everyPageLoads (Resolved ["a.md"]) (Resolved ["a.md"; "b.md"]) in
  synchronizeWith env (Normal (fun t => (Resolved (Some fileTemplate), t))) demoDoc []
  = [EvGetReferencedFiles demoDoc; EvGetFilesInNotesFolder demoDoc;
     EvInsertContent demoDoc (Some fileTemplate) ("{label}", "b.md")
       ("{link}", "./day19367/b.md")].
Proof.
  intros env.
  exact (synchronize_links_each_unreferenced_file env demoDoc
           (fun t => (Resolved (Some fileTemplate), t)) (Some fileTemplate)
           ["a.md"] ["a.md"; "b.md"] [] (fun _ => eq_refl) eq_refl eq_refl).
Defined.

Lemma existsb_unreferenced_false (referencedFiles foundFiles : list string) :
  existsb (unreferenced referencedFiles) foundFiles = false
  <-> (forall f, In f foundFiles -> In f referencedFiles).
Proof.
  split.
  - intros H f Hf. apply unreferenced_false_iff.
    destruct (unreferenced referencedFiles f) eqn:E; [|reflexivity].
    assert (existsb (unreferenced referencedFiles) foundFiles = true) as Ht
      by (apply existsb_exists; now exists f).
    congruence.
  - intros H. destruct (existsb _ foundFiles) eqn:E; [|reflexivity].
    apply existsb_exists in E as (f & Hf & Hun).
    apply H, unreferenced_false_iff in Hf. congruence.
Qed.

(** With both listings at hand, the synchronization shows nothing when
    every file of the notes folder is referenced in the page, and shows its
    failure message once, whatever the number of files that are not. *)
Theorem synchronize_message_iff_unreferenced
    (env : Env) (doc : TextDocument) (t : Trace) (referencedFiles foundFiles : list string) :
  getReferencedFiles env t doc = Resolved referencedFiles ->
  getFilesInNotesFolder env (t ++ [EvGetReferencedFiles doc]) doc = Resolved foundFiles ->
  ((forall f, In f foundFiles -> In f referencedFiles) ->
     synchronizeReferencedFiles env doc t
     = t ++ [EvGetReferencedFiles doc; EvGetFilesInNotesFolder doc])
  /\ (forall f, In f foundFiles -> ~ In f referencedFiles ->
        synchronizeReferencedFiles env doc t
        = t ++ [EvGetReferencedFiles doc; EvGetFilesInNotesFolder doc;
                syncFailureMessage "Not yet implemented"]).
Proof.
  intros Hrefs Hfound. rewrite synchronize_run. unfold syncEvents. rewrite Hrefs, Hfound.
  split.
  - intros Hall. apply existsb_unreferenced_false in Hall. now rewrite Hall.
  - intros f Hf Hnot.
    assert (existsb (unreferenced referencedFiles) foundFiles = true) as ->; [|reflexivity].
    apply existsb_exists. exists f. split; [exact Hf|].
    destruct (unreferenced referencedFiles f) eqn:E; [reflexivity|].
    now apply unreferenced_false_iff in E.
Qed.

Lemma synchronize_message_iff_unreferenced_witness :
  let env := demoEnv Pending everyPageLoads (Resolved ["a.md"; "b.md"])
               (Resolved ["b.md"; "a.md"]) in
  synchronizeReferencedFiles env demoDoc []
  = [EvGetReferencedFiles demoDoc; EvGetFilesInNotesFolder demoDoc].
Proof.
  intros env.
  destruct (synchronize_message_iff_unreferenced env demoDoc [] ["a.md"; "b.md"]
              ["b.md"; "a.md"] eq_refl eq_refl) as [H _].
  apply H. intros f [<-|[<-|[]]]; cbn; tauto.
Defined.

(** *** Settings and paths *)

(** The file extension is never empty: one leading dot is dropped, and an
    empty rest gives "md".  A second dot stays. *)
Theorem getFileExtension_never_empty (ext : string) :
  getFileExtension ext <> EmptyString
  /\ (prefix "." ext = false -> ext <> EmptyString -> getFileExtension ext = ext)
  /\ (forall rest, rest <> EmptyString -> getFileExtension (String "." rest) = rest)
  /\ getFileExtension EmptyString = "md"
  /\ getFileExtension "." = "md".
Proof.
  assert (forall s, (0 <? String.length s)%nat = false -> s = EmptyString) as Hempty.
  { intros [|c r]; [reflexivity|discriminate]. }
  assert (forall s, s <> EmptyString -> (0 <? String.length s)%nat = true) as Hfull.
  { intros [|c r] H; [now destruct H|reflexivity]. }
  repeat split.
  - unfold getFileExtension.
    destruct (0 <? String.length (if prefix "." ext then dropChars 1 ext else ext))%nat eqn:E.
    + intros H. rewrite H in E. discriminate.
    + discriminate.
  - intros Hdot Hne. unfold getFileExtension. rewrite Hdot. now rewrite Hfull.
  - intros rest Hne. unfold getFileExtension.
    change (prefix "." (String "." rest)) with (prefix EmptyString rest).
    replace (prefix EmptyString rest) with true by now destruct rest.
    cbn [dropChars]. now rewrite Hfull.
Qed.

Lemma getFileExtension_never_empty_witness :
  getFileExtension "txt" = "txt" /\ getFileExtension ".md" = "md"
  /\ getFileExtension "..md" = ".md".
Proof.
  destruct (getFileExtension_never_empty "txt") as (_ & Hplain & Hdot & _).
  split; [apply Hplain; [reflexivity|discriminate]|].
  split; apply Hdot; discriminate.
Defined.

Lemma matchVariable_noDollar (s : string) :
  noDollar s = true -> matchVariable s = None.
Proof.
  induction s as [|c r IH]; cbn [matchVariable noDollar]; intros H; [reflexivity|].
  apply andb_true_iff in H as [Hc Hr].
  destruct (Ascii.eqb c "$"); [discriminate|]. now apply IH.
Qed.

Lemma resolvePath_plain_throws (lib : PathLib) (base pathStr : string) :
  noDollar pathStr = true ->
  resolvePath lib base pathStr = Throw (TypeError_null "forEach").
Proof.
  intros H. unfold resolvePath. now rewrite matchVariable_noDollar.
Qed.

(** A templates directory written without any [${...}] makes
    [resolvePath] throw: [match] returns [null] and [forEach] is called on
    it. *)
Theorem resolvePath_without_variable_throws (lib : PathLib) (base pathStr : string) :
  noDollar pathStr = true ->
  resolvePath lib base pathStr = Throw (TypeError_null "forEach").
Proof.
  exact (resolvePath_plain_throws lib base pathStr).
Qed.

Lemma resolvePath_without_variable_throws_witness :
  resolvePath demoPathLib "/data/journal" "/home/me/templates"
  = Throw (TypeError_null "forEach").
Proof.
  apply resolvePath_without_variable_throws. reflexivity.
Defined.

Lemma uptoLastBrace_noBrace (s : string) :
  noBrace s = true -> uptoLastBrace s = None.
Proof.
  induction s as [|c r IH]; cbn [uptoLastBrace noBrace]; intros H; [reflexivity|].
  apply andb_true_iff in H as [Hc Hr]. rewrite (IH Hr).
  now destruct (Ascii.eqb c "}").
Qed.

Lemma noBrace_lineRun (s : string) :
  noBrace s = true -> noBrace (lineRun s) = true.
Proof.
  induction s as [|c r IH]; intros H; [reflexivity|].
  cbn [lineRun]. destruct (lineTerminatorAt (String c r)); [reflexivity|].
  cbn [noBrace] in *. apply andb_true_iff in H as [Hc Hr]. now rewrite Hc, IH.
Qed.

Lemma uptoLastBrace_closing (x q : string) :
  noBrace q = true -> uptoLastBrace (x ++ String "}" q) = Some (x ++ "}")%string.
Proof.
  intros Hq. induction x as [|c r IH].
  - cbn. now rewrite (uptoLastBrace_noBrace q Hq).
  - change ((String c r ++ String "}" q)%string) with (String c (r ++ String "}" q)%string).
    cbn [uptoLastBrace]. now rewrite IH.
Qed.

Lemma lineRun_journalFolder (post : string) :
  lineRun ("journalFolder}" ++ post) = String "j" ("ournalFolder" ++ String "}" (lineRun post)).
Proof. reflexivity. Qed.

Lemma matchVariable_journalFolder (pre post : string) :
  noDollar pre = true -> noBrace post = true ->
  matchVariable (pre ++ "${journalFolder}" ++ post) = Some "${journalFolder}".
Proof.
  intros Hpre Hpost. induction pre as [|c r IH].
  - change (("" ++ "${journalFolder}" ++ post)%string)
      with (String "$" (String "{" ("journalFolder}" ++ post)%string)).
    cbn [matchVariable]. change (Ascii.eqb "$" "$") with true.
    change (Ascii.eqb "{" "{") with true. cbv beta iota.
    rewrite lineRun_journalFolder. cbn [dotPlusBrace].
    rewrite uptoLastBrace_closing by now apply noBrace_lineRun. reflexivity.
  - cbn [noDollar] in Hpre. apply andb_true_iff in Hpre as [Hc Hr].
    change ((String c r ++ "${journalFolder}" ++ post)%string)
      with (String c (r ++ "${journalFolder}" ++ post)%string).
    cbn [matchVariable]. destruct (Ascii.eqb c "$"); [discriminate|]. now apply IH.
Qed.

Lemma splitAtFirst_journalFolder (pre post : string) :
  noDollar pre = true ->
  splitAtFirst "${journalFolder}" (pre ++ "${journalFolder}" ++ post) = Some (pre, post).
Proof.
  intros Hpre. induction pre as [|c r IH].
  - cbn. now destruct post.
  - cbn [noDollar] in Hpre. apply andb_true_iff in Hpre as [Hc Hr].
    change ((String c r ++ "${journalFolder}" ++ post)%string)
      with (String c (r ++ "${journalFolder}" ++ post)%string).
    cbn [splitAtFirst]. rewrite (IH Hr).
    assert (prefix "${journalFolder}" (String c (r ++ "${journalFolder}" ++ post)) = false)
      as ->; [|reflexivity].
    cbn [prefix]. destruct (ascii_dec "$" c) as [<-|]; [discriminate Hc|reflexivity].
Qed.

(** The one variable that is understood: a path with [${journalFolder}]
    once, no [$] before it and no closing brace after it, is the same path
    with the variable replaced by the base path (a base path without [$],
    which [replace] would expand). *)
Theorem resolvePath_journalFolder (lib : PathLib) (base pre post : string) :
  noDollar pre = true ->
  noBrace post = true ->
  noDollar (getBasePath lib base) = true ->
  resolvePath lib base (pre ++ "${journalFolder}" ++ post)
  = Normal (pre ++ getBasePath lib base ++ post)%string.
Proof.
  intros Hpre Hpost Hbase. unfold resolvePath.
  rewrite matchVariable_journalFolder by assumption.
  unfold replacePlaceholder. rewrite String.eqb_refl.
  unfold jsReplace. rewrite splitAtFirst_journalFolder by assumption.
  now rewrite getSubstitution_noDollar.
Qed.

Lemma resolvePath_journalFolder_witness :
  resolvePath demoPathLib "/data/journal" "${journalFolder}/.templates"
  = Normal "/data/journal/.templates".
Proof.
  exact (resolvePath_journalFolder demoPathLib "/data/journal" EmptyString "/.templates"
           eq_refl eq_refl eq_refl).
Defined.

Example resolvePath_two_variables :
  resolvePath demoPathLib "/data/journal" "${journalFolder}/${date:}"
  = Throw "Error: Failed to susbstitute variable: ${journalFolder}/${date:}".
Proof. reflexivity. Qed.

(** *** Scopes and templates *)

Lemma prefix_append (s x : string) : prefix s (s ++ x) = true.
Proof.
  induction s as [|c r IH]; cbn.
  - now destruct x.
  - destruct (ascii_dec c c) as [_|Hne]; [exact IH|now destruct Hne].
Qed.

(** A scope is found by the beginning of its name: the first scope whose
    name starts with the id is taken, so a scope whose name only begins
    like the id hides every scope after it, the one named exactly so
    included. *)
Theorem findScope_takes_first_prefix
    (sid suffix : string) (sc : Scope) (rest : list Scope) :
  sid <> EmptyString ->
  name sc = (sid ++ suffix)%string ->
  findScope (sc :: rest) (Some sid) = Some sc.
Proof.
  intros Hsid Hname. unfold findScope, scopeOrDefault. cbn [find].
  destruct (sid =? EmptyString) eqn:E; [now apply String.eqb_eq in E|].
  now rewrite Hname, prefix_append.
Qed.

Lemma findScope_takes_first_prefix_witness :
  findScope [workshopScope; workScope] (Some "work") = Some workshopScope.
Proof.
  apply (findScope_takes_first_prefix "work" "shop" workshopScope [workScope]).
  - discriminate.
  - reflexivity.
Defined.

(** The header lookup succeeds exactly when an inline template has the
    key [<scope>.entry.header] in its field [scope]; otherwise it throws,
    whatever the other templates are. *)
Theorem getHeaderTemplate_exact_scope
    (templatesArray : list InlineTemplate) (sid : option string) :
  let key := (scopeOrDefault sid ++ ".entry.header")%string in
  ((exists tpl, getHeaderTemplate (Some templatesArray) sid = Normal tpl)
   <-> (exists e, In e templatesArray /\ scope e = key))
  /\ ((forall e, In e templatesArray -> scope e <> key) ->
      getHeaderTemplate (Some templatesArray) sid = Throw (TypeError_undefined "template")).
Proof.
  intros key. unfold getHeaderTemplate. cbn [inlineTemplatesArray]. fold key.
  destruct (find (fun e => scope e =? key) templatesArray) as [e|] eqn:E.
  - apply find_some in E as [Hin Heq]. apply String.eqb_eq in Heq. split.
    + split; intros _; [now exists e | now exists (template e)].
    + intros Hnone. now destruct (Hnone e Hin).
  - split.
    + split.
      * intros [tpl H]. discriminate H.
      * intros (e & Hin & Heq). apply (find_none _ _ E) in Hin.
        rewrite Heq, String.eqb_refl in Hin. discriminate.
    + reflexivity.
Qed.

Lemma getHeaderTemplate_exact_scope_witness :
  getHeaderTemplate (Some demoTemplates) (Some "work") = Throw (TypeError_undefined "template").
Proof.
  destruct (getHeaderTemplate_exact_scope demoTemplates (Some "work")) as [_ H].
  apply H. intros e [<-|[<-|[]]]; discriminate.
Defined.

(** The memo lookup never fails: it resolves with the first template whose
    [id] is [<scope>.entry.memo], with [undefined] when there is none, and
    it is left pending when the setting itself is missing.  It calls
    nothing. *)
Theorem getMemoTemplate_never_rejects
    (cfg : option (list InlineTemplate)) (sid : option string) (t : Trace) :
  (forall r, fst (getMemoTemplate cfg sid t) <> Rejected r)
  /\ snd (getMemoTemplate cfg sid t) = t
  /\ (fst (getMemoTemplate cfg sid t) = Pending <-> cfg = None)
  /\ (forall tpl, fst (getMemoTemplate cfg sid t) = Resolved (Some tpl) ->
        id tpl = (scopeOrDefault sid ++ ".entry.memo")%string).
Proof.
  unfold getMemoTemplate. destruct cfg as [templatesArray|]; cbn.
  - repeat split; try discriminate.
    intros tpl H. injection H as H. apply find_some in H as [_ H].
    now apply String.eqb_eq in H.
  - repeat split; try discriminate.
Qed.

(** The note patterns, for a journal configuration that is there: the
    lookup of the path pattern answers with the file pattern of the scope,
    not with its path; a scope that is not there hands over to the default
    scope, and only when that is missing too the promise is rejected. *)
Theorem notes_path_pattern_reads_file (config : Root) (sid : option string) (t : Trace) :
  match notesPatternLookup notesPathOf (loadedConfig config) sid,
        notesPatternLookup notesFileOf (loadedConfig config) sid with
  | Normal pathPattern, Normal filePattern =>
      pathPattern t = filePattern t
      /\ (forall sc, findScope (scopes config) sid = Some sc ->
            pathPattern t = (Resolved (file (note sc)), t))
      /\ (forall dflt,
            findScope (scopes config) sid = None ->
            findScope (scopes config) (Some SCOPE_DEFAULT) = Some dflt ->
            pathPattern t = (Resolved (file (note dflt)), t))
      /\ (findScope (scopes config) sid = None ->
          findScope (scopes config) (Some SCOPE_DEFAULT) = None ->
          pathPattern t = (Rejected (TypeError_undefined "note"), t))
  | _, _ => False
  end.
Proof.
  cbn [notesPatternLookup loadedConfig]. split; [reflexivity|].
  unfold promise, catch_, then_, await, complete, resolve_, reject_, settle, notesPathOf.
  cbn [fst snd deferred locals trace]. repeat split.
  - intros sc ->. reflexivity.
  - intros dflt -> ->. reflexivity.
  - intros -> ->. reflexivity.
Qed.

Lemma notes_path_pattern_reads_file_witness :
  match notesPatternLookup notesPathOf
          (loadedConfig (mkRoot [workScope; mkScope "default" (mkPage [] "notes" "note")
                                              (mkPage [] "entries" "entry")]))
          (Some "work") with
  | Normal pathPattern => pathPattern [] = (Resolved "work-note", [])
  | Throw _ => False
  end.
Proof.
  pose proof (notes_path_pattern_reads_file
                (mkRoot [workScope; mkScope "default" (mkPage [] "notes" "note")
                                      (mkPage [] "entries" "entry")])
                (Some "work") []) as H.
  cbn [notesPatternLookup loadedConfig] in *.
  destruct H as (_ & Hfound & _). exact (Hfound workScope eq_refl).
Defined.

(** *** The templates directory *)

Ltac fs_unchain :=
  unfold getTemplatesDirectory, readTemplate, initializeTemplateDir, copyTask, fsPromise,
    fsDetach, fsThen, fsCatch, fsCall, fsEmit, fsAwait, fsSettle, fsComplete, fsRet, fsThrow
    in *;
  cbn [fsAll fst snd] in *.

(** Everything is in place: the directory and the page template in it are
    accessible.  The directory is returned after these two checks; nothing
    is made or copied. *)
Theorem getTemplatesDirectory_in_place
    (h : FsHost) (settings : Settings) (t : list FsEvent) (configDir : string) :
  let filePath := pathJoin (paths h) [configDir; "journal.page-template.md"] in
  configuredTemplatesDirectory h settings = Normal configDir ->
  checkIfFileIsAccessible h t configDir = Resolved tt ->
  checkIfFileIsAccessible h (t ++ [FsAccess configDir]) filePath = Resolved tt ->
  getTemplatesDirectory h settings t
  = (Resolved configDir, t ++ [FsAccess configDir; FsAccess filePath]).
Proof.
  intros filePath Hdir Hcheck Hfile. fs_unchain. rewrite Hdir. cbn [fst snd].
  rewrite Hcheck. cbn [fst snd]. fold filePath. rewrite Hfile. cbn [fst snd].
  now rewrite <- app_assoc.
Qed.

Lemma getTemplatesDirectory_in_place_witness :
  getTemplatesDirectory (demoFsHost (fun _ => true) (Resolved tt)) demoSettings []
  = (Resolved "/data/journal/.vscode",
     [FsAccess "/data/journal/.vscode";
      FsAccess "/data/journal/.vscode/journal.page-template.md"]).
Proof.
  exact (getTemplatesDirectory_in_place (demoFsHost (fun _ => true) (Resolved tt))
           demoSettings [] "/data/journal/.vscode" eq_refl eq_refl eq_refl).
Defined.

(** The directory is not accessible and cannot be made either.  The
    failure of [mkdir] is caught by the handler meant for a missing page
    template: the three template files are copied all the same, the
    settings file is copied when it is not accessible, and the directory is
    returned as if it was there. *)
Theorem getTemplatesDirectory_mkdir_failure_ignored
    (h : FsHost) (settings : Settings) (t : list FsEvent) (configDir extPath r r' : string) :
  let source := pathResolve (paths h) [extPath; "res"; "configs"] in
  let copy := fun file =>
    FsCopy (pathJoin (paths h) [source; file]) (pathJoin (paths h) [configDir; file]) in
  let settingsPath := pathJoin (paths h) [configDir; "settings.json"] in
  let t1 := t ++ [FsAccess configDir; FsMkdir configDir; copy "journal.page-template.md";
                  copy "journal.note-template.md"; copy "journal.inline-templates.json"] in
  configuredTemplatesDirectory h settings = Normal configDir ->
  extensionPath h = Some extPath ->
  checkIfFileIsAccessible h t configDir = Rejected r ->
  mkdir h (t ++ [FsAccess configDir]) configDir = Rejected r' ->
  getTemplatesDirectory h settings t
  = (Resolved configDir,
     t1 ++ FsAccess settingsPath
        :: match checkIfFileIsAccessible h t1 settingsPath with
           | Rejected _ => [copy "settings.json"]
           | _ => []
           end).
Proof.
  intros source copy settingsPath t1 Hdir Hext Hcheck Hmkdir. fs_unchain.
  rewrite Hdir, Hext. cbn [fst snd]. rewrite Hcheck. cbn [fst snd].
  rewrite Hmkdir. cbn [fst snd]. subst t1 copy settingsPath source.
  rewrite <- !app_assoc. cbn [app]. clear Hcheck Hmkdir.
  destruct (checkIfFileIsAccessible h _ _); cbn [fst snd];
    rewrite <- ?app_assoc; reflexivity.
Qed.

Lemma getTemplatesDirectory_mkdir_failure_ignored_witness :
  fst (getTemplatesDirectory (demoFsHost (fun _ => false) (Rejected "EACCES")) demoSettings [])
  = Resolved "/data/journal/.vscode".
Proof.
  rewrite (getTemplatesDirectory_mkdir_failure_ignored
             (demoFsHost (fun _ => false) (Rejected "EACCES")) demoSettings []
             "/data/journal/.vscode" "/ext" "ENOENT: /data/journal/.vscode" "EACCES"
             eq_refl eq_refl eq_refl eq_refl).
  reflexivity.
Defined.

(** A templates directory is configured, but written without a variable:
    [resolvePath] throws inside [Q.fcall], whose promise nobody looks at.
    No file is touched, and neither the promise of the directory nor the
    promise of a template read from it is ever settled. *)
Theorem getTemplatesDirectory_hangs_without_variable
    (h : FsHost) (settings : Settings) (t : list FsEvent) (configDir : string) :
  templatesDirectorySetting settings = Some configDir ->
  configDir <> EmptyString ->
  noDollar configDir = true ->
  getTemplatesDirectory h settings t = (Pending, t)
  /\ getJournalEntryTemplate h settings t = (Pending, t)
  /\ getNotesTemplate h settings t = (Pending, t).
Proof.
  intros Hset Hne Hplain.
  assert (getTemplatesDirectory h settings t = (Pending, t)) as Hdir.
  { unfold getTemplatesDirectory, configuredTemplatesDirectory. rewrite Hset.
    destruct configDir as [|c rest]; [now destruct Hne|].
    cbn [String.length Nat.ltb Nat.leb].
    rewrite resolvePath_plain_throws by exact Hplain. reflexivity. }
  split; [exact Hdir|].
  unfold getJournalEntryTemplate, getNotesTemplate, readTemplate, fsPromise, fsCatch,
    fsThen, fsAwait.
  cbn [fst snd]. rewrite Hdir. now split.
Qed.

Lemma getTemplatesDirectory_hangs_without_variable_witness :
  getJournalEntryTemplate (demoFsHost (fun _ => true) (Resolved tt))
    (mkSettings "/data/journal" (Some "/home/me/templates")) []
  = (Pending, []).
Proof.
  destruct (getTemplatesDirectory_hangs_without_variable
              (demoFsHost (fun _ => true) (Resolved tt))
              (mkSettings "/data/journal" (Some "/home/me/templates")) []
              "/home/me/templates" eq_refl) as (_ & H & _).
  - discriminate.
  - reflexivity.
  - exact H.
Defined.

(** With the extension installed, [getTemplatesDirectory] is never
    rejected, whatever the file system answers: the copies report success
    before anything is copied, so "Error copying" and "Failed to
    initialize the configuration" are not reached. *)
Theorem getTemplatesDirectory_never_rejects
    (h : FsHost) (settings : Settings) (t : list FsEvent) (r : string) :
  extensionPath h <> None ->
  fst (getTemplatesDirectory h settings t) <> Rejected r.
Proof.
  intros Hext. fs_unchain.
  destruct (extensionPath h) as [extPath|]; [clear Hext|now destruct Hext].
  destruct (configuredTemplatesDirectory h settings) as [configDir|e]; cbn [fst snd];
    [|discriminate].
  repeat match goal with
         | |- context [match ?o with Resolved _ => _ | Rejected _ => _ | Pending => _ end] =>
             lazymatch o with
             | checkIfFileIsAccessible _ _ _ => destruct o; cbn [fst snd]
             | mkdir _ _ _ => destruct o; cbn [fst snd]
             end
         end;
    discriminate.
Qed.

Lemma getTemplatesDirectory_never_rejects_witness :
  fst (getTemplatesDirectory (demoFsHost (fun _ => false) (Rejected "EACCES")) demoSettings [])
  <> Rejected "Failed to initialize the configuration: EACCES".
Proof.
  apply getTemplatesDirectory_never_rejects. discriminate.
Defined.

(** Reading a template composes with the directory: the file read is the
    one the key stands for, in the directory that was returned; its text
    is the answer, and a failure of the read, or of the directory, comes
    back behind the prefix of the reader. *)
Theorem getNotesTemplate_reads_note_template
    (h : FsHost) (settings : Settings) (t t' : list FsEvent) (configDir : string) :
  let filePath := pathJoin (paths h) [configDir; "journal.note-template.md"] in
  getTemplatesDirectory h settings t = (Resolved configDir, t') ->
  snd (getNotesTemplate h settings t) = t' ++ [FsReadFile filePath]
  /\ (forall data, readFile h t' filePath = Resolved data ->
        fst (getNotesTemplate h settings t) = Resolved data)
  /\ (forall r, readFile h t' filePath = Rejected r ->
        fst (getNotesTemplate h settings t)
        = Rejected ("Failed to get note template. Reason: " ++ r)%string).
Proof.
  intros filePath Hdir.
  unfold getNotesTemplate, readTemplate, fsPromise, fsCatch, fsThen, fsAwait, fsCall,
    fsComplete, fsSettle, fsRet.
  change (configFilename "tpl.note") with (@Normal string "journal.note-template.md").
  cbn [fst snd]. rewrite Hdir. cbn [fst snd]. fold filePath.
  destruct (readFile h t' filePath) as [data|r|]; cbn [fst snd];
    (split; [reflexivity|]); split; intros x H;
    first [discriminate H | now injection H as <-].
Qed.

Lemma getNotesTemplate_reads_note_template_witness :
  getNotesTemplate (demoFsHost (fun _ => true) (Resolved tt)) demoSettings []
  = (Resolved "content of /data/journal/.vscode/journal.note-template.md",
     [FsAccess "/data/journal/.vscode";
      FsAccess "/data/journal/.vscode/journal.page-template.md";
      FsReadFile "/data/journal/.vscode/journal.note-template.md"]).
Proof.
  destruct (getNotesTemplate_reads_note_template (demoFsHost (fun _ => true) (Resolved tt))
              demoSettings []
              [FsAccess "/data/journal/.vscode";
               FsAccess "/data/journal/.vscode/journal.page-template.md"]
              "/data/journal/.vscode" eq_refl) as (Htrace & Hdata & _).
  rewrite (surjective_pairing (getNotesTemplate _ _ _)), Htrace.
  rewrite (Hdata "content of /data/journal/.vscode/journal.note-template.md" eq_refl).
  reflexivity.
Defined.

Lemma getMemoTemplate_never_rejects_witness :
  fst (getMemoTemplate None (Some "work") []) = Pending
  /\ fst (getMemoTemplate (Some demoTemplates) (Some "work") []) = Resolved None.
Proof.
  destruct (getMemoTemplate_never_rejects None (Some "work") []) as (_ & _ & Hpending & _).
  split; [now apply Hpending | reflexivity].
Defined.

(** The fallback of the file-link and task lookups works inside a scope
    only: a scope that is there but lacks the template hands over to the
    default scope, while an id that matches no scope is a TypeError, even
    when the default scope has the template. *)
Theorem scopedTemplate_fallback_needs_scope
    (templateId : string) (val : Root) (sid : option string) (dflt : Scope) :
  findScope (scopes val) (Some SCOPE_DEFAULT) = Some dflt ->
  (forall sc,
     findScope (scopes val) sid = Some sc ->
     findTemplate (templates (entry sc)) templateId = None ->
     scopedTemplate templateId val sid
     = Normal (findTemplate (templates (entry dflt)) templateId))
  /\ (findScope (scopes val) sid = None ->
      scopedTemplate templateId val sid = Throw (TypeError_undefined "entry")).
Proof.
  intros Hdflt. split.
  - intros sc Hsc Hnone. now apply (scopedTemplate_falls_back templateId val sid sc dflt).
  - apply scopedTemplate_unknown_scope.
Qed.

Lemma scopedTemplate_fallback_needs_scope_witness :
  scopedTemplate "file" demoRoot (Some "work") = Normal (Some fileTemplate)
  /\ scopedTemplate "file" demoRoot (Some "home") = Throw (TypeError_undefined "entry").
Proof.
  destruct (scopedTemplate_fallback_needs_scope "file" demoRoot (Some "work")
              (mkScope "default" (mkPage [] "notes" "note")
                 (mkPage [fileTemplate; taskTemplate] "entries" "entry")) eq_refl)
    as [Hwork _].
  destruct (scopedTemplate_fallback_needs_scope "file" demoRoot (Some "home")
              (mkScope "default" (mkPage [] "notes" "note")
                 (mkPage [fileTemplate; taskTemplate] "entries" "entry")) eq_refl)
    as [_ Hhome].
  split.
  - exact (Hwork (mkScope "work" (mkPage [] "notes" "note")
                    (mkPage [workTaskTemplate] "entries" "entry")) eq_refl eq_refl).
  - exact (Hhome eq_refl).
Defined.

(** Whatever template the file-link or task lookup returns, its [id]
    starts with the id asked for, and it is an entry template of a scope of
    the configuration whose name starts with the scope asked for or with
    "default". *)
Theorem scopedTemplate_sound
    (templateId : string) (val : Root) (sid : option string) (tpl : InlineTemplate) :
  scopedTemplate templateId val sid = Normal (Some tpl) ->
  prefix templateId (id tpl) = true
  /\ exists sc,
       In sc (scopes val)
       /\ In tpl (templates (entry sc))
       /\ (prefix (scopeOrDefault sid) (name sc) = true
           \/ prefix SCOPE_DEFAULT (name sc) = true).
Proof.
  unfold scopedTemplate, findTemplate.
  destruct (findScope (scopes val) sid) as [sc|] eqn:Hsc; cbn [entryTemplates];
    [|discriminate].
  apply find_some in Hsc as [Hin Hname].
  destruct (find _ (templates (entry sc))) as [found|] eqn:Hfound.
  - intros H. injection H as <-. apply find_some in Hfound as [Htpl Hid].
    split; [exact Hid|]. exists sc. auto.
  - destruct (findScope (scopes val) (Some SCOPE_DEFAULT)) as [dflt|] eqn:Hdflt;
      cbn [entryTemplates]; [|discriminate].
    intros H. injection H as H. apply find_some in H as [Htpl Hid].
    apply find_some in Hdflt as [Hin' Hname'].
    split; [exact Hid|]. exists dflt. auto.
Qed.

Lemma scopedTemplate_sound_witness :
  prefix "task" (id workTaskTemplate) = true
  /\ exists sc, In sc (scopes demoRoot) /\ In workTaskTemplate (templates (entry sc)).
Proof.
  destruct (scopedTemplate_sound "task" demoRoot (Some "work") workTaskTemplate eq_refl)
    as (Hid & sc & Hin & Htpl & _).
  split; [exact Hid|]. now exists sc.
Defined.
